(** * MediSync: a shallow embedding of [app.py]

    The application is a Flask program whose handlers read the submitted
    form and the session, run SQL statements on a PostgreSQL database and
    return a response.  The embedding keeps that shape:

    - the database is a record of tables (lists of rows, in insertion
      order) plus the counters of the [SERIAL] columns;
    - the session is a finite map from keys to Python values;
    - a handler is a function from a request to a computation in a state
      and exception monad over the world (database and session).

    The behaviour of the libraries the program calls (werkzeug's password
    check, Python's [int], PostgreSQL's input conversions and collation)
    is not part of the repository; it is collected in the class
    [Platform] and every result holds for every instance of it.  The
    database server is taken to be reachable: [psycopg2.connect] returns a
    connection.  The driver refuses to bind a string that holds a NUL
    character; this is modelled where a string of the request is bound,
    in the [SELECT] of [auth] and the [INSERT] of [add_purchase]. *)

From Stdlib Require Import ZArith Lia Ascii String.
From stdpp Require Import base option gmap strings pretty list sorting.

Local Open Scope Z_scope.

(** ** Python values and exceptions *)

(** The values the program stores in the session or passes to a
    template: [None], [True]/[False], integers and strings. *)
Inductive value :=
  | VNone
  | VBool (b : bool)
  | VInt (n : Z)
  | VStr (s : string).

Global Instance value_eq_dec : EqDecision value.
Proof. solve_decision. Defined.

(** Python truthiness, as used by [if], [not], [and] and [or]. *)
Definition truthy (v : value) : bool :=
  match v with
  | VNone => false
  | VBool b => b
  | VInt n => negb (n =? 0)
  | VStr s => negb (String.eqb s "")
  end.

(** [a or b] *)
Definition py_or (a b : value) : value := if truthy a then a else b.

(** A nullable SQL integer or text column as the driver hands it to Python. *)
Definition of_sql_int (o : option Z) : value := from_option VInt VNone o.
Definition of_sql_text (o : option string) : value := from_option VStr VNone o.

(** The exceptions a handler can leave unhandled. *)
Inductive exn :=
  | BadRequestKeyError (key : string)   (* request.form[key], key absent *)
  | KeyError (key : string)             (* session[key], key absent *)
  | ValueError                          (* int(s) on a bad literal; the driver on a
                                           string with a NUL; werkzeug on a hash it
                                           cannot read *)
  | DataError                           (* psycopg2: value rejected by a column type *)
  | IntegrityError.                     (* psycopg2: constraint violated *)

Inductive outcome (A : Type) :=
  | Return (a : A)
  | Raise (e : exn).
Arguments Return {A} a.
Arguments Raise {A} e.

(** ** The schema created by [init_db]

    One module per table; a row is a record of the table's columns.  A
    column without [NOT NULL] (and that is not the primary key) is an
    [option].  Timestamps and dates are integers. *)

Module users.
Record row := {
  id : Z;
  username : string;            (* TEXT UNIQUE NOT NULL *)
  password : string;            (* TEXT NOT NULL *)
  full_name : string;           (* TEXT NOT NULL *)
  role : option string;         (* TEXT DEFAULT 'staff' *)
  created_at : option Z }.
End users.

Module user_activity.
Record row := {
  id : Z;
  username : string;            (* TEXT NOT NULL *)
  activity : string;            (* TEXT NOT NULL *)
  activity_time : option Z }.   (* DEFAULT CURRENT_TIMESTAMP *)
End user_activity.

Module Category.
Record row := {
  id : Z;
  category_name : string;
  created_at : option Z }.
End Category.

Module Product.
Record row := {
  id : Z;
  product_name : string;        (* TEXT NOT NULL *)
  product_type : string;        (* TEXT CHECK (... IN ('medicine','supply')) NOT NULL *)
  category_id : option Z;
  stock_quantity : option Z;    (* INTEGER DEFAULT 0 *)
  stock_status : option string; (* TEXT DEFAULT 'in stock' *)
  status : option string;       (* TEXT DEFAULT 'active' *)
  created_at : option Z }.
End Product.

Module Supplier.
Record row := {
  id : Z;
  supplier_name : string;       (* TEXT UNIQUE NOT NULL *)
  contact_person : option string;
  contact_number : option string;
  created_at : option Z }.
End Supplier.

Module Purchase.
Record row := {
  id : Z;
  product_id : option Z;        (* REFERENCES Product(id) ON DELETE CASCADE *)
  supplier_id : option Z;       (* REFERENCES Supplier(id) *)
  batch_number : option string;
  purchase_quantity : Z;        (* INTEGER NOT NULL *)
  remaining_quantity : Z;       (* INTEGER NOT NULL *)
  expiration_date : option Z;
  status : option string;       (* TEXT DEFAULT 'in stock' *)
  purchase_date : option Z }.   (* TIMESTAMP DEFAULT CURRENT_TIMESTAMP *)
End Purchase.

Module Order.
Record row := {
  order_id : Z;
  product_id : option Z;
  batch_number : option string;
  order_quantity : Z;
  customer : string;
  order_date : option Z }.
End Order.

Module notification.
Record row := {
  id : Z;
  product_id : option Z;
  batch_id : option string;
  message : option string;
  type : option string;
  is_read : option bool;
  ignored : option bool;
  created_at : option Z }.
End notification.

Record Tables := {
  users : list users.row;
  user_activity : list user_activity.row;
  Category : list Category.row;
  Product : list Product.row;
  Supplier : list Supplier.row;
  Purchase : list Purchase.row;
  Order : list Order.row;
  notification : list notification.row }.

(** The [CHECK] constraint of [Product.product_type]. *)
Definition product_type_check (p : Product.row) : Prop :=
  Product.product_type p = "medicine" ∨ Product.product_type p = "supply".

(** ** The world a request runs in *)

Record World := {
  tables : Tables;                 (* committed rows *)
  sequences : gmap string Z;       (* last value of each SERIAL counter *)
  clock : Z;                       (* the server's CURRENT_TIMESTAMP *)
  session : gmap string value }.   (* flask.session *)

Record Request := {
  form : gmap string string }.     (* request.form *)

(** Computations that read and write the world and may raise. *)
Definition M (A : Type) : Type := World → outcome A * World.

Global Instance M_ret : MRet M := λ A a w, (Return a, w).
Global Instance M_bind : MBind M := λ A B k m w,
  match m w with
  | (Return a, w') => k a w'
  | (Raise e, w') => (Raise e, w')
  end.

Definition raise {A} (e : exn) : M A := λ w, (Raise e, w).

(** ** What the program takes from its libraries *)

(** psycopg2 binds a Python string as a quoted literal and refuses, with
    [ValueError], a string that holds a NUL character; nothing is sent
    to the server then. *)
Fixpoint nul_free (s : string) : bool :=
  match s with
  | EmptyString => true
  | String c s' => negb (Ascii.eqb c Ascii.zero) && nul_free s'
  end.

Class Platform := {
  (* werkzeug.security.check_password_hash(pwhash, password); None stands
     for the ValueError raised on a stored value whose method is unknown *)
  check_password_hash : string → string → option bool;
  (* Python's int(s) on a string; None stands for ValueError *)
  py_int : string → option Z;
  (* PostgreSQL's conversion of a quoted literal to INTEGER and to DATE;
     None stands for a rejected literal *)
  pg_integer : string → option Z;
  pg_date : string → option Z;
  (* the database's collation order on TEXT *)
  pg_text_le : string → string → bool;
  (* the server converts the literals the driver sent, and the driver
     sends no string that holds a NUL *)
  pg_integer_nul_free : ∀ s n, pg_integer s = Some n → nul_free s = true;
  pg_date_nul_free : ∀ s d, pg_date s = Some d → nul_free s = true }.

(** ** [flask.session] and [request.form] *)

Definition set_tables (t : Tables) (w : World) : World :=
  {| tables := t; sequences := sequences w; clock := clock w; session := session w |}.
Definition set_sequences (q : gmap string Z) (w : World) : World :=
  {| tables := tables w; sequences := q; clock := clock w; session := session w |}.
Definition set_session (s : gmap string value) (w : World) : World :=
  {| tables := tables w; sequences := sequences w; clock := clock w; session := s |}.

(** [session.get(key)] *)
Definition session_get (key : string) : M value :=
  λ w, (Return (default VNone (session w !! key)), w).

(** [session[key]] *)
Definition session_getitem (key : string) : M value :=
  λ w, match session w !! key with
       | Some v => (Return v, w)
       | None => (Raise (KeyError key), w)
       end.

(** [session.clear()] *)
Definition session_clear : M () := λ w, (Return (), set_session ∅ w).

(** [session.update(d)]: the keys of [d] overwrite those of the session. *)
Definition session_update (d : gmap string value) : M () :=
  λ w, (Return (), set_session (d ∪ session w) w).

(** [request.form[key]] *)
Definition request_form (req : Request) (key : string) : M string :=
  match form req !! key with
  | Some v => mret v
  | None => raise (BadRequestKeyError key)
  end.

(** ** The database driver

    A connection works on its own copy of the tables; [commit] publishes
    the copy, and a connection dropped without [commit] leaves the
    committed tables as they were.  Counters of [SERIAL] columns are not
    transactional: [nextval] advances them at once. *)

Record Connection := { txn : Tables }.

Definition connect : M Connection := λ w, (Return {| txn := tables w |}, w).
Definition commit (conn : Connection) : M () :=
  λ w, (Return (), set_tables (txn conn) w).
Definition close (conn : Connection) : M () := mret ().

Definition nextval (seq : string) : M Z :=
  λ w, let n := default 0 (sequences w !! seq) + 1 in
       (Return n, set_sequences (<[seq := n]> (sequences w)) w).

Definition current_timestamp : M Z := λ w, (Return (clock w), w).

(** The range of an [INTEGER] column. *)
Definition in_integer_range (n : Z) : bool :=
  (-2147483648 <=? n) && (n <=? 2147483647).

(** A Python value bound to a [TEXT] column; [None] is SQL [NULL]. *)
Definition sql_text (v : value) : option string :=
  match v with
  | VNone => None
  | VBool b => Some (if b then "true" else "false")
  | VInt n => Some (pretty n)
  | VStr s => Some s
  end.

(** [SUM(...)]: NULL inputs are skipped, and the sum of no value is NULL. *)
Definition sql_sum (l : list (option Z)) : option Z :=
  foldr (λ x acc, match x with
                  | Some a => Some (a + default 0 acc)
                  | None => acc
                  end) None l.

Definition add_user_activity (r : user_activity.row) (t : Tables) : Tables :=
  {| users := users t; user_activity := user_activity t ++ [r];
     Category := Category t; Product := Product t; Supplier := Supplier t;
     Purchase := Purchase t; Order := Order t; notification := notification t |}.

Definition add_Purchase (r : Purchase.row) (t : Tables) : Tables :=
  {| users := users t; user_activity := user_activity t;
     Category := Category t; Product := Product t; Supplier := Supplier t;
     Purchase := Purchase t ++ [r]; Order := Order t; notification := notification t |}.

(** [INSERT INTO user_activity (username, activity) VALUES (%s, %s)].
    The username bound here has been bound before, by the [SELECT] of
    [auth], or is the session's, which [auth] read from [users]; a
    [TEXT] column holds no NUL, so the driver binds it. *)
Definition insert_user_activity (conn : Connection)
    (username : value) (activity : string) : M Connection :=
  id ← nextval "user_activity_id_seq";
  t ← current_timestamp;
  match sql_text username with
  | None => raise IntegrityError            (* NOT NULL *)
  | Some u =>
      mret {| txn := add_user_activity
                       {| user_activity.id := id;
                          user_activity.username := u;
                          user_activity.activity := activity;
                          user_activity.activity_time := Some t |} (txn conn) |}
  end.

(** [REFERENCES Product(id)] and [REFERENCES Supplier(id)] *)
Definition Product_exists (t : Tables) (i : Z) : bool :=
  existsb (λ p, Product.id p =? i) (Product t).
Definition Supplier_exists (t : Tables) (i : Z) : bool :=
  existsb (λ s, Supplier.id s =? i) (Supplier t).

Section platform.
Context `{Platform}.

(** The five bound parameters of the [INSERT] of [add_purchase] as column
    values: the two ids and the date arrive as strings and are converted
    by the server, the two quantities arrive as integers. *)
Definition Purchase_columns (product_id supplier_id : string)
    (purchase_quantity remaining_quantity : Z) (expiration_date : string)
    : option (Z * Z * Z * Z * Z) :=
  p ← pg_integer product_id;
  s ← pg_integer supplier_id;
  guard (in_integer_range purchase_quantity);;
  guard (in_integer_range remaining_quantity);;
  d ← pg_date expiration_date;
  Some (p, s, purchase_quantity, remaining_quantity, d).

(** [INSERT INTO Purchase (product_id, supplier_id, purchase_quantity,
    remaining_quantity, expiration_date) VALUES (%s, %s, %s, %s, %s)]:
    the driver binds the three strings, then the server converts the
    values and inserts the row. *)
Definition insert_Purchase (conn : Connection) (product_id supplier_id : string)
    (purchase_quantity remaining_quantity : Z) (expiration_date : string)
    : M Connection :=
  if negb (nul_free product_id && nul_free supplier_id
           && nul_free expiration_date)
  then raise ValueError else
  match Purchase_columns product_id supplier_id
          purchase_quantity remaining_quantity expiration_date with
  | None => raise DataError
  | Some (p, s, pq, rq, d) =>
      id ← nextval "purchase_id_seq";
      t ← current_timestamp;
      if Product_exists (txn conn) p && Supplier_exists (txn conn) s then
        mret {| txn := add_Purchase
                         {| Purchase.id := id;
                            Purchase.product_id := Some p;
                            Purchase.supplier_id := Some s;
                            Purchase.batch_number := None;
                            Purchase.purchase_quantity := pq;
                            Purchase.remaining_quantity := rq;
                            Purchase.expiration_date := Some d;
                            Purchase.status := Some "in stock";
                            Purchase.purchase_date := Some t |} (txn conn) |}
      else raise IntegrityError             (* foreign key *)
  end.

(** [SELECT id, username, password, full_name, role FROM users
    WHERE username=%s]: the driver binds the username, then the server
    returns the rows that carry it. *)
Definition select_users_by_username (conn : Connection) (username : string)
    : M (list users.row) :=
  if nul_free username
  then mret (filter (λ u, users.username u = username) (users (txn conn)))
  else raise ValueError.

(** [... FROM Product WHERE status='active'] *)
Definition active (p : Product.row) : Prop := Product.status p = Some "active".
Global Instance active_dec p : Decision (active p).
Proof. unfold active. apply _. Defined.

Definition active_products (conn : Connection) : list Product.row :=
  filter active (Product (txn conn)).

(** [SELECT SUM(stock_quantity) FROM Product WHERE status='active'] *)
Definition select_sum_stock_quantity (conn : Connection) : option Z :=
  sql_sum (Product.stock_quantity <$> active_products conn).

(** [CASE WHEN product_type=ty THEN 1 ELSE 0 END] *)
Definition case_product_type (ty : string) (p : Product.row) : Z :=
  if decide (Product.product_type p = ty) then 1 else 0.

(** [SELECT SUM(CASE WHEN product_type='medicine' THEN 1 ELSE 0 END),
    SUM(CASE WHEN product_type='supply' THEN 1 ELSE 0 END)
    FROM Product WHERE status='active'] *)
Definition select_type_counts (conn : Connection) : option Z * option Z :=
  (sql_sum ((λ p, Some (case_product_type "medicine" p)) <$> active_products conn),
   sql_sum ((λ p, Some (case_product_type "supply" p)) <$> active_products conn)).

End platform.

(** [a LEFT JOIN b ON on]: every row of [a] with each matching row of
    [b], or with NULLs when none matches. *)
Definition left_join {A B} (on : A → B → bool) (l : list A) (r : list B)
    : list (A * option B) :=
  l ≫= λ a, match List.filter (on a) r with
            | [] => [(a, None)]
            | m => (λ b, (a, Some b)) <$> m
            end.

(** [ORDER BY ... DESC] on a nullable column: NULLs come first. *)
Definition desc (a b : option Z) : Prop :=
  match a, b with
  | None, _ => True
  | Some _, None => False
  | Some x, Some y => y ≤ x
  end.
Global Instance desc_dec a b : Decision (desc a b).
Proof. destruct a, b; simpl; apply _. Defined.

(** The nine columns selected by the listing query of [purchases]. *)
Module PurchaseListing.
Record row := {
  id : Z;                           (* pu.id *)
  product_name : option string;     (* pr.product_name *)
  batch_number : option string;     (* pu.batch_number *)
  purchase_quantity : Z;            (* pu.purchase_quantity *)
  remaining_quantity : Z;           (* pu.remaining_quantity *)
  expiration_date : option Z;       (* pu.expiration_date *)
  status : option string;           (* pu.status *)
  purchase_date : option Z;         (* pu.purchase_date *)
  supplier_name : option string }.  (* s.supplier_name *)
End PurchaseListing.

Section queries.
Context `{Platform}.

Definition Purchase_Product_Supplier (t : Tables)
    : list (Purchase.row * option Product.row * option Supplier.row) :=
  left_join (λ pupr s,
      bool_decide (Purchase.supplier_id pupr.1 = Some (Supplier.id s)))
    (left_join (λ pu pr,
       bool_decide (Purchase.product_id pu = Some (Product.id pr)))
       (Purchase t) (Product t))
    (Supplier t).

Definition listing_row
    (j : Purchase.row * option Product.row * option Supplier.row)
    : PurchaseListing.row :=
  let '(pu, pr, s) := j in
  {| PurchaseListing.id := Purchase.id pu;
     PurchaseListing.product_name := Product.product_name <$> pr;
     PurchaseListing.batch_number := Purchase.batch_number pu;
     PurchaseListing.purchase_quantity := Purchase.purchase_quantity pu;
     PurchaseListing.remaining_quantity := Purchase.remaining_quantity pu;
     PurchaseListing.expiration_date := Purchase.expiration_date pu;
     PurchaseListing.status := Purchase.status pu;
     PurchaseListing.purchase_date := Purchase.purchase_date pu;
     PurchaseListing.supplier_name := Supplier.supplier_name <$> s |}.

Definition by_purchase_date_desc (x y : PurchaseListing.row) : Prop :=
  desc (PurchaseListing.purchase_date x) (PurchaseListing.purchase_date y).

(** [SELECT pu.id, pr.product_name, ..., s.supplier_name FROM Purchase pu
    LEFT JOIN Product pr ON pu.product_id = pr.id
    LEFT JOIN Supplier s ON pu.supplier_id = s.id
    ORDER BY pu.purchase_date DESC] *)
Definition select_purchases (conn : Connection) : list PurchaseListing.row :=
  merge_sort by_purchase_date_desc
    (listing_row <$> Purchase_Product_Supplier (txn conn)).

Definition by_name (x y : Z * string) : Prop := pg_text_le x.2 y.2.

(** [SELECT id, product_name FROM Product ORDER BY product_name] *)
Definition select_products (conn : Connection) : list (Z * string) :=
  merge_sort by_name
    ((λ p, (Product.id p, Product.product_name p)) <$> Product (txn conn)).

(** [SELECT id, supplier_name FROM Supplier ORDER BY supplier_name] *)
Definition select_suppliers (conn : Connection) : list (Z * string) :=
  merge_sort by_name
    ((λ s, (Supplier.id s, Supplier.supplier_name s)) <$> Supplier (txn conn)).

End queries.

(** ** Responses and routes *)

Inductive response :=
  (* redirect(location) *)
  | redirect (location : string)
  (* render_template("index.html") and render_template("index.html", error=...) *)
  | render_index_html (error : option string)
  (* render_template("admin.html", total_stocks=..., medicines=..., supplies=...) *)
  | render_admin_html (total_stocks medicines supplies : value)
  (* render_template("purchase.html", purchases=..., products=..., suppliers=...) *)
  | render_purchase_html (purchases : list PurchaseListing.row)
      (products suppliers : list (Z * string))
  (* jsonify(success=...) *)
  | jsonify (success : bool).

(** The view functions registered with [@app.route]. *)
Inductive endpoint :=
  | Login | Auth | Logout | Dashboard | Purchases | AddPurchase.

(** [url_for(endpoint)]: the rule of the route. *)
Definition url_for (e : endpoint) : string :=
  match e with
  | Login => "/"
  | Auth => "/auth"
  | Logout => "/logout"
  | Dashboard => "/dashboard"
  | Purchases => "/purchases"
  | AddPurchase => "/add-purchase"
  end.

Definition Handler : Type := Request → M response.

(** ** The program *)

Definition login_required (f : Handler) : Handler := λ req,
  logged_in ← session_get "logged_in";
  if negb (truthy logged_in) then mret (redirect (url_for Login))
  else f req.

Definition log_activity (username : value) (activity : string) : M () :=
  conn ← connect;
  conn ← insert_user_activity conn username activity;
  commit conn;;
  close conn.

Definition login : Handler := λ req,
  session_clear;;
  mret (render_index_html None).

Section handlers.
Context `{Platform}.

Definition auth : Handler := λ req,
  username ← request_form req "username";
  password ← request_form req "password";
  conn ← connect;
  rows ← select_users_by_username conn username;
  let user := head rows in
  close conn;;
  match user with
  | Some user =>
      verified ← from_option mret (raise ValueError)
                   (check_password_hash (users.password user) password);
      if verified : bool then
        session_update (list_to_map [
          ("logged_in", VBool true);
          ("user_id", VInt (users.id user));
          ("username", VStr (users.username user));
          ("name", VStr (users.full_name user));
          ("role", of_sql_text (users.role user)) ]);;
        log_activity (VStr username) "Logged in";;
        mret (redirect (url_for Dashboard))
      else mret (render_index_html (Some "Invalid login"))
  | None => mret (render_index_html (Some "Invalid login"))
  end.

Definition logout : Handler := λ req,
  u ← session_get "username";
  (if truthy u then
     u ← session_getitem "username";
     log_activity u "Logged out"
   else mret ());;
  session_clear;;
  mret (redirect (url_for Login)).

Definition dashboard : Handler := λ req,
  conn ← connect;
  let total_stocks := py_or (of_sql_int (select_sum_stock_quantity conn)) (VInt 0) in
  let '(meds, supplies) := select_type_counts conn in
  close conn;;
  mret (render_admin_html total_stocks
          (py_or (of_sql_int meds) (VInt 0))
          (py_or (of_sql_int supplies) (VInt 0))).

Definition purchases : Handler := λ req,
  conn ← connect;
  let purchases := select_purchases conn in
  let products := select_products conn in
  let suppliers := select_suppliers conn in
  close conn;;
  mret (render_purchase_html purchases products suppliers).

Definition add_purchase : Handler := λ req,
  conn ← connect;
  product_id ← request_form req "product_id";
  supplier_id ← request_form req "supplier_id";
  purchase_quantity ← request_form req "purchase_quantity";
  qty ← from_option mret (raise ValueError) (py_int purchase_quantity);
  expiration ← request_form req "expiration_date";
  conn ← insert_Purchase conn product_id supplier_id qty qty expiration;
  commit conn;;
  close conn;;
  username ← session_getitem "username";
  log_activity username "Added stock-in";;
  mret (jsonify true).

(** The routing table: each endpoint's view function, with its
    decorators. *)
Definition view_function (e : endpoint) : Handler :=
  match e with
  | Login => login
  | Auth => auth
  | Logout => logout
  | Dashboard => login_required dashboard
  | Purchases => login_required purchases
  | AddPurchase => login_required add_purchase
  end.

End handlers.

(** How Flask answers: a redirect is a 302, a rendered page or a JSON
    body a 200; werkzeug's [BadRequestKeyError] is an HTTP exception and
    becomes a 400, any other exception is a 500 Internal Server Error. *)
Definition status_code (o : outcome response) : Z :=
  match o with
  | Return (redirect _) => 302
  | Return _ => 200
  | Raise (BadRequestKeyError _) => 400
  | Raise _ => 500
  end.

(** The session of a logged-in user, as [auth] leaves it. *)
Definition authenticated (s : gmap string value) : Prop :=
  ∃ u, s !! "logged_in" = Some (VBool true) ∧ s !! "username" = Some (VStr u).


(** [username TEXT UNIQUE] *)
Definition users_username_unique (t : Tables) : Prop :=
  NoDup (users.username <$> users t).

(** ** A concrete platform

    Used to run the model on examples.  It accepts less than the
    libraries do: integers are decimal literals with an optional sign,
    dates are calendar dates written [YYYY-MM-DD], a stored hash is
    [plain$$] followed by the password, and text is ordered byte-wise.
    A stored value with fewer than two [$] verifies no password, and
    one with another method than [plain] makes the check raise. *)

Definition digit (c : ascii) : option Z :=
  let n := Z.of_N (Ascii.N_of_ascii c) in
  if (48 <=? n) && (n <=? 57) then Some (n - 48) else None.

Fixpoint digits (acc : Z) (s : string) : option Z :=
  match s with
  | EmptyString => Some acc
  | String c s' => d ← digit c; digits (10 * acc + d) s'
  end.

Definition decimal (s : string) : option Z :=
  match s with
  | EmptyString => None
  | String "-" (String _ _ as s') => Z.opp <$> digits 0 s'
  | String "+" (String _ _ as s') => digits 0 s'
  | String "-" EmptyString | String "+" EmptyString => None
  | _ => digits 0 s
  end.

Definition days_in_month (y m : Z) : Z :=
  if (m =? 2) then
    if ((y mod 4 =? 0) && negb (y mod 100 =? 0)) || (y mod 400 =? 0)
    then 29 else 28
  else if (m =? 4) || (m =? 6) || (m =? 9) || (m =? 11) then 30
  else 31.

Definition iso_date (s : string) : option Z :=
  if decide (String.length s = 10%nat ∧
             String.get 4 s = Some "-"%char ∧ String.get 7 s = Some "-"%char)
  then
    y ← digits 0 (substring 0 4 s);
    m ← digits 0 (substring 5 2 s);
    d ← digits 0 (substring 8 2 s);
    guard (1 ≤ y ∧ 1 ≤ m ≤ 12 ∧ 1 ≤ d ≤ days_in_month y m);;
    Some (y * 10000 + m * 100 + d)
  else None.

Fixpoint count_dollars (s : string) : nat :=
  match s with
  | EmptyString => 0
  | String c s' => (if Ascii.eqb c "$" then 1 else 0) + count_dollars s'
  end.

Definition plain_check (pwhash password : string) : option bool :=
  if (count_dollars pwhash <? 2)%nat then Some false
  else if String.prefix "plain$$" pwhash
       then Some (String.eqb pwhash ("plain$$" +:+ password))
       else None.

(** [o] when the driver has bound the string, nothing otherwise. *)
Definition bound {A} (s : string) (o : option A) : option A :=
  if nul_free s then o else None.

Definition bound_nul_free {A} (s : string) (o : option A) (a : A) :
  bound s o = Some a → nul_free s = true.
Proof. unfold bound. destruct (nul_free s); [reflexivity | discriminate]. Defined.

Definition sample_platform : Platform :=
  {| check_password_hash := plain_check;
     py_int := decimal;
     pg_integer s :=
       bound s (n ← decimal s; guard (in_integer_range n);; Some n);
     pg_date s := bound s (iso_date s);
     pg_text_le := String.leb;
     pg_integer_nul_free s n := bound_nul_free s _ n;
     pg_date_nul_free s d := bound_nul_free s _ d |}.

Definition empty_tables : Tables :=
  {| users := []; user_activity := []; Category := []; Product := [];
     Supplier := []; Purchase := []; Order := []; notification := [] |}.

Definition aspirin : Product.row :=
  {| Product.id := 1; Product.product_name := "Aspirin";
     Product.product_type := "medicine"; Product.category_id := None;
     Product.stock_quantity := Some 50; Product.stock_status := Some "in stock";
     Product.status := Some "active"; Product.created_at := None |}.

Definition gauze : Product.row :=
  {| Product.id := 2; Product.product_name := "Gauze";
     Product.product_type := "supply"; Product.category_id := None;
     Product.stock_quantity := Some 20; Product.stock_status := Some "in stock";
     Product.status := Some "active"; Product.created_at := None |}.

Definition acme : Supplier.row :=
  {| Supplier.id := 1; Supplier.supplier_name := "Acme";
     Supplier.contact_person := None; Supplier.contact_number := None;
     Supplier.created_at := None |}.

Definition alice : users.row :=
  {| users.id := 7; users.username := "alice"; users.password := "plain$$secret";
     users.full_name := "Alice A."; users.role := Some "staff";
     users.created_at := None |}.

Definition pharmacy : Tables :=
  {| users := [alice]; user_activity := []; Category := [];
     Product := [aspirin; gauze]; Supplier := [acme]; Purchase := [];
     Order := []; notification := [] |}.

Definition world_of (t : Tables) (s : gmap string value) : World :=
  {| tables := t; sequences := ∅; clock := 1000; session := s |}.

Definition alice_session : gmap string value :=
  list_to_map [("logged_in", VBool true); ("user_id", VInt 7);
               ("username", VStr "alice"); ("name", VStr "Alice A.");
               ("role", VStr "staff")].

Definition post (fields : list (string * string)) : Request :=
  {| form := list_to_map fields |}.

Definition stock_in_request : Request :=
  post [("product_id", "1"); ("supplier_id", "1");
        ("purchase_quantity", "100"); ("expiration_date", "2025-01-01")].

(** ** What [log_activity] leaves behind *)

(** The value [nextval] will draw from a counter. *)
Definition next_id (seq : string) (w : World) : Z :=
  default 0 (sequences w !! seq) + 1.

(** The audit row written in world [w] for user [u] and activity [a]. *)
Definition audit_row (w : World) (u a : string) : user_activity.row :=
  {| user_activity.id := next_id "user_activity_id_seq" w;
     user_activity.username := u;
     user_activity.activity := a;
     user_activity.activity_time := Some (clock w) |}.

(** The world after one audit row has been committed. *)
Definition logged (u a : string) (w : World) : World :=
  set_tables (add_user_activity (audit_row w u a) (tables w))
    (set_sequences
       (<["user_activity_id_seq" := next_id "user_activity_id_seq" w]> (sequences w)) w).

(** ** The vocabulary of the properties *)

(** The session keys written by a successful [auth]. *)
Definition session_of (user : users.row) : gmap string value :=
  list_to_map [
    ("logged_in", VBool true);
    ("user_id", VInt (users.id user));
    ("username", VStr (users.username user));
    ("name", VStr (users.full_name user));
    ("role", of_sql_text (users.role user)) ].

Definition Zsum (l : list Z) : Z := foldr Z.add 0 l.

(** A stock quantity as [SUM] counts it: NULL adds nothing. *)
Definition stock (p : Product.row) : Z := default 0 (Product.stock_quantity p).

Definition is_medicine (p : Product.row) : Prop := Product.product_type p = "medicine".
Definition is_supply (p : Product.row) : Prop := Product.product_type p = "supply".

(** The row [add_purchase] inserts in world [w]. *)
Definition stock_in_row (w : World) (p s qty d : Z) : Purchase.row :=
  {| Purchase.id := next_id "purchase_id_seq" w;
     Purchase.product_id := Some p;
     Purchase.supplier_id := Some s;
     Purchase.batch_number := None;
     Purchase.purchase_quantity := qty;
     Purchase.remaining_quantity := qty;
     Purchase.expiration_date := Some d;
     Purchase.status := Some "in stock";
     Purchase.purchase_date := Some (clock w) |}.

(** The world after that row has been committed. *)
Definition stocked (w : World) (p s qty d : Z) : World :=
  set_tables (add_Purchase (stock_in_row w p s qty d) (tables w))
    (set_sequences
       (<["purchase_id_seq" := next_id "purchase_id_seq" w]> (sequences w)) w).

(** A session either carries no true [logged_in] flag or is that of a
    logged-in user. *)
Definition session_ok (s : gmap string value) : Prop :=
  truthy (default VNone (s !! "logged_in")) = true → authenticated s.

Section vocabulary.
Context `{Platform}.

(** The four form fields of [add_purchase]. *)
Definition stock_in_form (req : Request) (pid sid q exp : string) : Prop :=
  form req !! "product_id" = Some pid ∧
  form req !! "supplier_id" = Some sid ∧
  form req !! "purchase_quantity" = Some q ∧
  form req !! "expiration_date" = Some exp.

(** The database accepts the row: the ids and the date convert, the
    quantity fits an [INTEGER], and the ids name a product and a
    supplier. *)
Definition insert_accepted (t : Tables) (pid sid : string) (qty : Z) (exp : string)
    (p s d : Z) : Prop :=
  pg_integer pid = Some p ∧ pg_integer sid = Some s ∧
  in_integer_range qty = true ∧ pg_date exp = Some d ∧
  Product_exists t p = true ∧ Supplier_exists t s = true.

(** A stock-in form with a field missing, or whose quantity is not an
    integer. *)
Definition bad_stock_in_form (req : Request) : Prop :=
  form req !! "product_id" = None ∨
  form req !! "supplier_id" = None ∨
  form req !! "purchase_quantity" = None ∨
  form req !! "expiration_date" = None ∨
  (∃ q, form req !! "purchase_quantity" = Some q ∧ py_int q = None).

End vocabulary.

(** ** Requests and worlds of the examples *)

Definition alice_login : Request :=
  post [("username", "alice"); ("password", "secret")].

Definition alice_wrong_password : Request :=
  post [("username", "alice"); ("password", "guess")].

(** A stock-in for a product that does not exist. *)
Definition unknown_product_request : Request :=
  post [("product_id", "999"); ("supplier_id", "1");
        ("purchase_quantity", "100"); ("expiration_date", "2025-01-01")].




(** ** Successive requests and what they may change *)

(** The last value drawn from a counter. *)
Definition last_value (seq : string) (w : World) : Z :=
  default 0 (sequences w !! seq).

(** The world after a [nextval] whose statement was then refused: the
    counter has advanced, nothing else has changed. *)
Definition bump (seq : string) (w : World) : World :=
  set_sequences (<[seq := next_id seq w]> (sequences w)) w.

(** The changes the program makes to the world: it rewrites the
    session, advances a counter, commits an audit row or commits a
    purchase row, any number of times. *)
Inductive changes : World → World → Prop :=
  | changes_refl w : changes w w
  | changes_trans w1 w2 w3 : changes w1 w2 → changes w2 w3 → changes w1 w3
  | changes_session s w : changes w (set_session s w)
  | changes_bump seq w : changes w (bump seq w)
  | changes_logged u a w : changes w (logged u a w)
  | changes_stocked p s qty d w : changes w (stocked w p s qty d).

(** [w'] holds the rows of [w] and possibly more audit and purchase
    rows: six tables are the same, [user_activity] and [Purchase] have
    only grown at their end, and the clock is the same. *)
Definition grown (w w' : World) : Prop :=
  users (tables w') = users (tables w) ∧
  Category (tables w') = Category (tables w) ∧
  Product (tables w') = Product (tables w) ∧
  Supplier (tables w') = Supplier (tables w) ∧
  Order (tables w') = Order (tables w) ∧
  notification (tables w') = notification (tables w) ∧
  user_activity (tables w) `prefix_of` user_activity (tables w') ∧
  Purchase (tables w) `prefix_of` Purchase (tables w') ∧
  clock w' = clock w.

(** The ids the program hands out: those of [Purchase] and of
    [user_activity] are pairwise distinct and none is beyond the last
    value of its counter. *)
Definition serial_ok (w : World) : Prop :=
  Forall (λ r, Purchase.id r ≤ last_value "purchase_id_seq" w)
    (Purchase (tables w)) ∧
  Forall (λ r, user_activity.id r ≤ last_value "user_activity_id_seq" w)
    (user_activity (tables w)) ∧
  NoDup (Purchase.id <$> Purchase (tables w)) ∧
  NoDup (user_activity.id <$> user_activity (tables w)).

(** [id SERIAL PRIMARY KEY] of [Product] and of [Supplier]. *)
Definition lookup_keys_unique (t : Tables) : Prop :=
  NoDup (Product.id <$> Product t) ∧ NoDup (Supplier.id <$> Supplier t).

Section serving.
Context `{Platform}.

(** The requests of one client, served one after the other: each runs
    in the world its predecessor left, whether it returned or raised. *)
Fixpoint serve (rs : list (endpoint * Request)) (w : World) : World :=
  match rs with
  | [] => w
  | (e, req) :: rs => serve rs (view_function e req w).2
  end.

End serving.

(** ** [init_db]

    The catalog says, for each of the eight tables, whether it exists
    and, if so, which rows it holds. *)

Module schema.
Record t := {
  users : option (list users.row);
  user_activity : option (list user_activity.row);
  Category : option (list Category.row);
  Product : option (list Product.row);
  Supplier : option (list Supplier.row);
  Purchase : option (list Purchase.row);
  Order : option (list Order.row);
  notification : option (list notification.row) }.
End schema.

(** The catalog of a database in which the eight tables exist. *)
Definition catalog_of (t : Tables) : schema.t :=
  {| schema.users := Some (users t);
     schema.user_activity := Some (user_activity t);
     schema.Category := Some (Category t);
     schema.Product := Some (Product t);
     schema.Supplier := Some (Supplier t);
     schema.Purchase := Some (Purchase t);
     schema.Order := Some (Order t);
     schema.notification := Some (notification t) |}.

(** [CREATE TABLE IF NOT EXISTS]: an existing table is left alone; a
    missing one is created empty, which the server refuses ([None])
    when a table named in a [REFERENCES] clause does not exist. *)
Definition create_if_not_exists {A} (table : option (list A))
    (references : list bool) : option (option (list A)) :=
  match table with
  | Some rows => Some (Some rows)
  | None => if forallb id references then Some (Some []) else None
  end.

(** The eight statements of [init_db], in the order of the source. *)
Definition create_users (c : schema.t) : option schema.t :=
  x ← create_if_not_exists (schema.users c) [];
  Some {| schema.users := x; schema.user_activity := schema.user_activity c;
          schema.Category := schema.Category c; schema.Product := schema.Product c;
          schema.Supplier := schema.Supplier c; schema.Purchase := schema.Purchase c;
          schema.Order := schema.Order c; schema.notification := schema.notification c |}.

Definition create_user_activity (c : schema.t) : option schema.t :=
  x ← create_if_not_exists (schema.user_activity c) [];
  Some {| schema.users := schema.users c; schema.user_activity := x;
          schema.Category := schema.Category c; schema.Product := schema.Product c;
          schema.Supplier := schema.Supplier c; schema.Purchase := schema.Purchase c;
          schema.Order := schema.Order c; schema.notification := schema.notification c |}.

Definition create_Category (c : schema.t) : option schema.t :=
  x ← create_if_not_exists (schema.Category c) [];
  Some {| schema.users := schema.users c; schema.user_activity := schema.user_activity c;
          schema.Category := x; schema.Product := schema.Product c;
          schema.Supplier := schema.Supplier c; schema.Purchase := schema.Purchase c;
          schema.Order := schema.Order c; schema.notification := schema.notification c |}.

(** [category_id INTEGER REFERENCES Category(id)] *)
Definition create_Product (c : schema.t) : option schema.t :=
  x ← create_if_not_exists (schema.Product c)
        [bool_decide (is_Some (schema.Category c))];
  Some {| schema.users := schema.users c; schema.user_activity := schema.user_activity c;
          schema.Category := schema.Category c; schema.Product := x;
          schema.Supplier := schema.Supplier c; schema.Purchase := schema.Purchase c;
          schema.Order := schema.Order c; schema.notification := schema.notification c |}.

Definition create_Supplier (c : schema.t) : option schema.t :=
  x ← create_if_not_exists (schema.Supplier c) [];
  Some {| schema.users := schema.users c; schema.user_activity := schema.user_activity c;
          schema.Category := schema.Category c; schema.Product := schema.Product c;
          schema.Supplier := x; schema.Purchase := schema.Purchase c;
          schema.Order := schema.Order c; schema.notification := schema.notification c |}.

(** [product_id INTEGER REFERENCES Product(id) ON DELETE CASCADE],
    [supplier_id INTEGER REFERENCES Supplier(id)] *)
Definition create_Purchase (c : schema.t) : option schema.t :=
  x ← create_if_not_exists (schema.Purchase c)
        [bool_decide (is_Some (schema.Product c));
         bool_decide (is_Some (schema.Supplier c))];
  Some {| schema.users := schema.users c; schema.user_activity := schema.user_activity c;
          schema.Category := schema.Category c; schema.Product := schema.Product c;
          schema.Supplier := schema.Supplier c; schema.Purchase := x;
          schema.Order := schema.Order c; schema.notification := schema.notification c |}.

(** [product_id INTEGER REFERENCES Product(id)] *)
Definition create_Order (c : schema.t) : option schema.t :=
  x ← create_if_not_exists (schema.Order c)
        [bool_decide (is_Some (schema.Product c))];
  Some {| schema.users := schema.users c; schema.user_activity := schema.user_activity c;
          schema.Category := schema.Category c; schema.Product := schema.Product c;
          schema.Supplier := schema.Supplier c; schema.Purchase := schema.Purchase c;
          schema.Order := x; schema.notification := schema.notification c |}.

Definition create_notification (c : schema.t) : option schema.t :=
  x ← create_if_not_exists (schema.notification c) [];
  Some {| schema.users := schema.users c; schema.user_activity := schema.user_activity c;
          schema.Category := schema.Category c; schema.Product := schema.Product c;
          schema.Supplier := schema.Supplier c; schema.Purchase := schema.Purchase c;
          schema.Order := schema.Order c; schema.notification := x |}.

(** [init_db]: the eight statements run in one transaction, which is
    committed at the end; [None] stands for a statement that raised, in
    which case nothing is committed. *)
Definition init_db (c : schema.t) : option schema.t :=
  c ← create_users c;
  c ← create_user_activity c;
  c ← create_Category c;
  c ← create_Product c;
  c ← create_Supplier c;
  c ← create_Purchase c;
  c ← create_Order c;
  c ← create_notification c;
  Some c.

(** A catalog in which no table exists. *)
Definition no_tables : schema.t :=
  {| schema.users := None; schema.user_activity := None; schema.Category := None;
     schema.Product := None; schema.Supplier := None; schema.Purchase := None;
     schema.Order := None; schema.notification := None |}.

(** ** The ledger, in the words of its query *)

(** What the listing query makes of a purchase [pu]: a row [r] with seven
    columns of [pu] and, joined to them, the name of the product whose
    id is [pu]'s [product_id] and the name of the supplier whose id is
    its [supplier_id]; a name is NULL when no such row exists. *)
Definition lists (t : Tables) (pu : Purchase.row) (r : PurchaseListing.row)
    : Prop :=
  PurchaseListing.id r = Purchase.id pu ∧
  PurchaseListing.batch_number r = Purchase.batch_number pu ∧
  PurchaseListing.purchase_quantity r = Purchase.purchase_quantity pu ∧
  PurchaseListing.remaining_quantity r = Purchase.remaining_quantity pu ∧
  PurchaseListing.expiration_date r = Purchase.expiration_date pu ∧
  PurchaseListing.status r = Purchase.status pu ∧
  PurchaseListing.purchase_date r = Purchase.purchase_date pu ∧
  ((∃ pr, pr ∈ Product t ∧ Purchase.product_id pu = Some (Product.id pr) ∧
          PurchaseListing.product_name r = Some (Product.product_name pr)) ∨
   ((∀ pr, pr ∈ Product t → Purchase.product_id pu ≠ Some (Product.id pr)) ∧
    PurchaseListing.product_name r = None)) ∧
  ((∃ su, su ∈ Supplier t ∧ Purchase.supplier_id pu = Some (Supplier.id su) ∧
          PurchaseListing.supplier_name r = Some (Supplier.supplier_name su)) ∨
   ((∀ su, su ∈ Supplier t → Purchase.supplier_id pu ≠ Some (Supplier.id su)) ∧
    PurchaseListing.supplier_name r = None)).

(** Descending order of [purchase_date], position by position: a row
    never comes after a row with an earlier date, and the rows without
    a date come first. *)
Definition newest_first (ps : list PurchaseListing.row) : Prop :=
  ∀ i j x y, (i < j)%nat → ps !! i = Some x → ps !! j = Some y →
    match PurchaseListing.purchase_date x, PurchaseListing.purchase_date y with
    | None, _ => True
    | Some _, None => False
    | Some a, Some b => b ≤ a
    end.

(** ** Further requests and worlds of the examples *)




Definition mallory_login : Request :=
  post [("username", "mallory"); ("password", "secret")].

(** An inactive product. *)
Definition retired : Product.row :=
  {| Product.id := 3; Product.product_name := "Leeches";
     Product.product_type := "medicine"; Product.category_id := None;
     Product.stock_quantity := Some 5; Product.stock_status := Some "in stock";
     Product.status := Some "inactive"; Product.created_at := None |}.

Definition pharmacy_reordered : Tables :=
  {| users := []; user_activity := []; Category := [];
     Product := [gauze; retired; aspirin]; Supplier := []; Purchase := [];
     Order := []; notification := [] |}.

(** A quantity one beyond the range of [INTEGER]. *)
Definition overflow_request : Request :=
  post [("product_id", "1"); ("supplier_id", "1");
        ("purchase_quantity", "2147483648"); ("expiration_date", "2025-01-01")].


(** A morning at the counter. *)
Definition morning : list (endpoint * Request) :=
  [(Login, post []); (Auth, alice_login); (AddPurchase, stock_in_request);
   (AddPurchase, unknown_product_request); (Purchases, post []);
   (Logout, post []); (Dashboard, post [])].

(** A ledger of two purchases, the older one first; the newer one names
    no product. *)
Definition older_purchase : Purchase.row :=
  {| Purchase.id := 1; Purchase.product_id := Some 1;
     Purchase.supplier_id := Some 1; Purchase.batch_number := None;
     Purchase.purchase_quantity := 100; Purchase.remaining_quantity := 100;
     Purchase.expiration_date := Some 20250101;
     Purchase.status := Some "in stock"; Purchase.purchase_date := Some 10 |}.

Definition newer_purchase : Purchase.row :=
  {| Purchase.id := 2; Purchase.product_id := None;
     Purchase.supplier_id := Some 1; Purchase.batch_number := Some "B-7";
     Purchase.purchase_quantity := 30; Purchase.remaining_quantity := 12;
     Purchase.expiration_date := None;
     Purchase.status := Some "in stock"; Purchase.purchase_date := Some 20 |}.

Definition ledger : Tables :=
  {| users := [alice]; user_activity := []; Category := [];
     Product := [aspirin; gauze]; Supplier := [acme];
     Purchase := [older_purchase; newer_purchase];
     Order := []; notification := [] |}.

(** The two rows [/purchases] renders for it. *)
Definition newer_listed : PurchaseListing.row :=
  {| PurchaseListing.id := 2; PurchaseListing.product_name := None;
     PurchaseListing.batch_number := Some "B-7";
     PurchaseListing.purchase_quantity := 30;
     PurchaseListing.remaining_quantity := 12;
     PurchaseListing.expiration_date := None;
     PurchaseListing.status := Some "in stock";
     PurchaseListing.purchase_date := Some 20;
     PurchaseListing.supplier_name := Some "Acme" |}.

Definition older_listed : PurchaseListing.row :=
  {| PurchaseListing.id := 1; PurchaseListing.product_name := Some "Aspirin";
     PurchaseListing.batch_number := None;
     PurchaseListing.purchase_quantity := 100;
     PurchaseListing.remaining_quantity := 100;
     PurchaseListing.expiration_date := Some 20250101;
     PurchaseListing.status := Some "in stock";
     PurchaseListing.purchase_date := Some 10;
     PurchaseListing.supplier_name := Some "Acme" |}.






(** A stock-in whose product id has a NUL character in it. *)
Definition nul_product_request : Request :=
  post [("product_id", String "1" (String Ascii.zero "")); ("supplier_id", "1");
        ("purchase_quantity", "100"); ("expiration_date", "2025-01-01")].

(** * Properties *)

(** Unfolds the monad and the primitive operations of the model. *)
Ltac run :=
  unfold mbind, M_bind, mret, M_ret, raise, session_get, session_getitem,
    session_clear, session_update, request_form, connect, commit, close,
    nextval, current_timestamp in *; simpl in *.

Lemma truthy_sql_text (v : value) : truthy v = true → is_Some (sql_text v).
Proof. destruct v; simpl; intros; try discriminate; eauto. Qed.

Lemma log_activity_logged (v : value) (u a : string) (w : World) :
  sql_text v = Some u → log_activity v a w = (Return (), logged u a w).
Proof.
  intros Hu. unfold log_activity, insert_user_activity. run.
  rewrite Hu. reflexivity.
Qed.

Lemma log_activity_null (a : string) (w : World) :
  ∃ w', log_activity VNone a w = (Raise IntegrityError, w') ∧ tables w' = tables w.
Proof. eexists. split; reflexivity. Qed.

Lemma logged_tables (u a : string) (w : World) :
  tables (logged u a w) = add_user_activity (audit_row w u a) (tables w).
Proof. reflexivity. Qed.

Lemma logged_session (u a : string) (w : World) :
  session (logged u a w) = session w.
Proof. reflexivity. Qed.

(** ** The gate *)


Lemma login_required_passes (f : Handler) (req : Request) (w : World) :
  truthy (default VNone (session w !! "logged_in")) = true →
  login_required f req w = f req w.
Proof. intros Hf. unfold login_required. run. rewrite Hf. reflexivity. Qed.

Section properties.
Context `{Platform}.


(** What [logout] does, by cases on the session's username. *)
Lemma logout_run (req : Request) (w : World) :
  logout req w =
    (Return (redirect "/"),
     set_session ∅
       (match sql_text (default VNone (session w !! "username")) with
        | Some u => if truthy (default VNone (session w !! "username"))
                    then logged u "Logged out" w else w
        | None => w
        end)).
Proof.
  unfold logout. run.
  destruct (session w !! "username") as [v|] eqn:Hv; simpl; [|reflexivity].
  destruct (truthy v) eqn:Ht; simpl.
  - destruct (truthy_sql_text v Ht) as [u Hu].
    rewrite Hv, (log_activity_logged v u _ w Hu), Hu. reflexivity.
  - destruct (sql_text v); reflexivity.
Qed.

Lemma logout_session (req : Request) (w : World) :
  session (logout req w).2 = ∅.
Proof. rewrite logout_run. reflexivity. Qed.



(** ** Authentication *)

Lemma head_filter_unique {A B} `{EqDecision B} (key : A → B) (l : list A) (x : A) :
  NoDup (key <$> l) → x ∈ l →
  head (filter (λ y, key y = key x) l) = Some x.
Proof.
  induction l as [|y l IH]; intros Hnd Hx; [by apply elem_of_nil in Hx|].
  rewrite fmap_cons in Hnd. apply NoDup_cons in Hnd as [Hy Hnd].
  rewrite filter_cons. apply elem_of_cons in Hx as [-> | Hx].
  - by rewrite decide_True.
  - rewrite decide_False; [by apply IH|].
    intros Heq. apply Hy. rewrite Heq. by apply list_elem_of_fmap_2.
Qed.

Lemma head_filter_elem_of {A} (P : A → Prop) `{∀ x, Decision (P x)}
    (l : list A) (x : A) :
  head (filter P l) = Some x → x ∈ l ∧ P x.
Proof.
  intros Hh. apply head_Some_elem_of in Hh.
  by apply list_elem_of_filter in Hh as [? ?].
Qed.

(** What [auth] does, case by case. *)
Lemma auth_run (req : Request) (w : World) :
  auth req w =
    match form req !! "username" with
    | None => (Raise (BadRequestKeyError "username"), w)
    | Some username =>
        match form req !! "password" with
        | None => (Raise (BadRequestKeyError "password"), w)
        | Some password =>
            if nul_free username then
              match head (filter (λ u, users.username u = username)
                            (users (tables w))) with
              | None => (Return (render_index_html (Some "Invalid login")), w)
              | Some user =>
                  match check_password_hash (users.password user) password with
                  | None => (Raise ValueError, w)
                  | Some false =>
                      (Return (render_index_html (Some "Invalid login")), w)
                  | Some true =>
                      (Return (redirect "/dashboard"),
                       logged username "Logged in"
                         (set_session (session_of user ∪ session w) w))
                  end
              end
            else (Raise ValueError, w)
        end
    end.
Proof.
  unfold auth, select_users_by_username. run.
  destruct (form req !! "username") as [username|]; simpl; [|done].
  destruct (form req !! "password") as [password|]; simpl; [|done].
  destruct (nul_free username); simpl; [|done].
  destruct (head _) as [user|]; simpl; [|done].
  destruct (check_password_hash _ _) as [[|]|]; reflexivity.
Qed.


Lemma auth_rejects (req : Request) (w : World) (username password : string) :
  form req !! "username" = Some username →
  form req !! "password" = Some password →
  nul_free username = true →
  (∀ user, head (filter (λ u, users.username u = username) (users (tables w)))
           = Some user →
           check_password_hash (users.password user) password = Some false) →
  auth req w = (Return (render_index_html (Some "Invalid login")), w).
Proof.
  intros Hu Hp Hnul Hrow. rewrite auth_run, Hu, Hp, Hnul.
  destruct (head _) as [user|] eqn:Hh; [|reflexivity].
  by rewrite (Hrow user eq_refl).
Qed.



Lemma session_of_lookup (user : users.row) (s : gmap string value) :
  (session_of user ∪ s) !! "logged_in" = Some (VBool true) ∧
  (session_of user ∪ s) !! "user_id" = Some (VInt (users.id user)) ∧
  (session_of user ∪ s) !! "username" = Some (VStr (users.username user)) ∧
  (session_of user ∪ s) !! "name" = Some (VStr (users.full_name user)) ∧
  (session_of user ∪ s) !! "role" = Some (of_sql_text (users.role user)).
Proof. repeat split; by apply lookup_union_Some_l. Qed.


(** ** The dashboard *)

Lemma sql_sum_default (l : list (option Z)) :
  default 0 (sql_sum l) = Zsum (default 0 <$> l).
Proof.
  unfold sql_sum, Zsum.
  induction l as [|[a|] l IH]; simpl; [done| |]; rewrite IH; reflexivity.
Qed.

Lemma py_or_zero (o : option Z) : py_or (of_sql_int o) (VInt 0) = VInt (default 0 o).
Proof.
  destruct o as [n|]; [|reflexivity]. unfold py_or; simpl.
  destruct (Z.eqb_spec n 0) as [->|]; reflexivity.
Qed.

Lemma Zsum_case (ty : string) (l : list Product.row) :
  Zsum (case_product_type ty <$> l)
    = Z.of_nat (length (filter (λ p, Product.product_type p = ty) l)).
Proof.
  induction l as [|p l IH]; [done|].
  rewrite fmap_cons, filter_cons. simpl. rewrite IH.
  unfold case_product_type. destruct (decide _); simpl; lia.
Qed.

Lemma sql_sum_case (ty : string) (l : list Product.row) :
  default 0 (sql_sum ((λ p, Some (case_product_type ty p)) <$> l))
    = Z.of_nat (length (filter (λ p, Product.product_type p = ty) l)).
Proof.
  rewrite sql_sum_default, <- list_fmap_compose, <- Zsum_case. done.
Qed.

Lemma dashboard_run (req : Request) (w : World) :
  dashboard req w =
    (Return (render_admin_html
       (VInt (Zsum (stock <$> filter active (Product (tables w)))))
       (VInt (Z.of_nat (length (filter is_medicine (filter active (Product (tables w)))))))
       (VInt (Z.of_nat (length (filter is_supply (filter active (Product (tables w)))))))),
     w).
Proof.
  unfold dashboard, select_type_counts, select_sum_stock_quantity,
    active_products. run.
  rewrite !py_or_zero, !sql_sum_case, sql_sum_default, <- list_fmap_compose.
  reflexivity.
Qed.

Lemma filter_partition {A} (P Q : A → Prop)
    `{∀ x, Decision (P x)} `{∀ x, Decision (Q x)} (l : list A) :
  Forall (λ x, (P x ∨ Q x) ∧ ¬ (P x ∧ Q x)) l →
  l ≡ₚ filter P l ++ filter Q l.
Proof.
  induction 1 as [|x l [Hor Hnand] _ IH]; [done|].
  rewrite !filter_cons.
  destruct (decide (P x)), (decide (Q x)); try tauto.
  - simpl. by f_equiv.
  - rewrite <- Permutation_middle. by f_equiv.
Qed.

Lemma medicine_xor_supply (p : Product.row) :
  product_type_check p → (is_medicine p ∨ is_supply p) ∧ ¬ (is_medicine p ∧ is_supply p).
Proof.
  unfold product_type_check, is_medicine, is_supply. intros Hck.
  split; [done|]. intros [Hm Hs]. rewrite Hm in Hs. discriminate.
Qed.

(** C3. Whatever the database holds, [/dashboard] renders as
    [total_stocks] the sum of [stock_quantity] over the products whose
    status is ['active'] (a NULL quantity adds nothing, as in SQL), and
    as [medicines] and [supplies] the numbers of active products of
    either type.  When the rows satisfy the constraint on
    [product_type], the two groups partition the active products: each
    active product is in exactly one of them, and the two counts add up
    to the number of active products. *)
Theorem dashboard_aggregates (req : Request) (w : World) :
  Forall product_type_check (Product (tables w)) →
  let act := filter active (Product (tables w)) in
  let meds := filter is_medicine act in
  let sups := filter is_supply act in
  dashboard req w =
    (Return (render_admin_html (VInt (Zsum (stock <$> act)))
               (VInt (Z.of_nat (length meds))) (VInt (Z.of_nat (length sups)))),
     w) ∧
  (truthy (default VNone (session w !! "logged_in")) = true →
   view_function Dashboard req w = dashboard req w) ∧
  act ≡ₚ meds ++ sups ∧
  (∀ p, p ∈ act → (p ∈ meds ∧ p ∉ sups) ∨ (p ∈ sups ∧ p ∉ meds)) ∧
  (length meds + length sups = length act)%nat.
Proof.
  intros Hck act meds sups.
  assert (Hact : Forall (λ p, (is_medicine p ∨ is_supply p) ∧
                              ¬ (is_medicine p ∧ is_supply p)) act).
  { apply Forall_forall. intros p Hp. apply medicine_xor_supply.
    apply list_elem_of_filter in Hp as [_ Hp].
    by apply (proj1 (Forall_forall _ _) Hck). }
  assert (Hperm : act ≡ₚ meds ++ sups) by by apply filter_partition.
  split; [apply dashboard_run|].
  split; [intros Hin; by apply login_required_passes|].
  split; [done|]. split.
  - intros p Hp.
    destruct (proj1 (Forall_forall _ _) Hact p Hp) as [[Hm | Hs] Hnot].
    + left. split; [by apply list_elem_of_filter|].
      intros Hs%list_elem_of_filter. tauto.
    + right. split; [by apply list_elem_of_filter|].
      intros Hm%list_elem_of_filter. tauto.
  - by rewrite Hperm, length_app.
Qed.

(** C10. [/dashboard] renders each of the three SQL aggregates
    coalesced to 0: the rendered [total_stocks], [medicines] and
    [supplies] are integers, equal to the aggregate when it is not NULL
    and to 0 when it is NULL, never [None].  With no active product the
    three aggregates are NULL and the three rendered values are 0. *)
Theorem dashboard_null_aggregates (req : Request) (w : World) :
  let conn := {| txn := tables w |} in
  dashboard req w =
    (Return (render_admin_html
       (VInt (default 0 (select_sum_stock_quantity conn)))
       (VInt (default 0 (select_type_counts conn).1))
       (VInt (default 0 (select_type_counts conn).2))), w) ∧
  (filter active (Product (tables w)) = [] →
   select_sum_stock_quantity conn = None ∧
   (select_type_counts conn).1 = None ∧
   (select_type_counts conn).2 = None ∧
   dashboard req w = (Return (render_admin_html (VInt 0) (VInt 0) (VInt 0)), w)).
Proof.
  intros conn. split.
  - unfold dashboard. run. rewrite !py_or_zero. reflexivity.
  - intros Hnone. rewrite dashboard_run.
    unfold select_sum_stock_quantity, select_type_counts, active_products.
    simpl. rewrite Hnone. done.
Qed.

(** ** The purchase ledger *)

Lemma elem_of_left_join {A B} (on : A → B → bool) (l : list A) (r : list B)
    (a : A) (ob : option B) :
  (a, ob) ∈ left_join on l r ↔
  a ∈ l ∧ match ob with
          | Some b => b ∈ r ∧ on a b = true
          | None => ∀ b, b ∈ r → on a b = false
          end.
Proof.
  unfold left_join. rewrite list_elem_of_bind. split.
  - intros (a' & Hin & Ha').
    destruct (List.filter (on a') r) as [|b0 m] eqn:Hf.
    + apply list_elem_of_singleton in Hin. injection Hin as -> ->.
      split; [done|]. intros b Hb. destruct (on a' b) eqn:Hon; [|done].
      assert (Hb' : In b (List.filter (on a') r)).
      { apply filter_In. split; [by apply list_elem_of_In|done]. }
      rewrite Hf in Hb'. destruct Hb'.
    + apply list_elem_of_fmap in Hin as (b & Heq & Hb). injection Heq as -> ->.
      split; [done|]. rewrite <- Hf in Hb.
      apply list_elem_of_In, filter_In in Hb as [Hb Hon].
      split; [by apply list_elem_of_In|done].
  - intros [Ha Hob]. exists a. split; [|done]. destruct ob as [b|].
    + destruct Hob as [Hb Hon].
      assert (Hb' : b ∈ List.filter (on a) r).
      { apply list_elem_of_In, filter_In. split; [by apply list_elem_of_In|done]. }
      destruct (List.filter (on a) r) as [|b0 m] eqn:Hf;
        [by apply elem_of_nil in Hb'|].
      apply list_elem_of_fmap. by exists b.
    + destruct (List.filter (on a) r) as [|b0 m] eqn:Hf;
        [by apply list_elem_of_singleton|].
      exfalso. assert (Hb' : In b0 (List.filter (on a) r)).
      { rewrite Hf. by left. }
      apply filter_In in Hb' as [Hb Hon].
      rewrite (Hob b0) in Hon; [done|by apply list_elem_of_In].
Qed.

Global Instance desc_total : Total desc.
Proof. intros [x|] [y|]; simpl; try tauto. lia. Qed.

Global Instance desc_trans : Transitive desc.
Proof. intros [x|] [y|] [z|]; simpl; try tauto. lia. Qed.

Global Instance by_purchase_date_desc_total : Total by_purchase_date_desc.
Proof. intros x y. apply desc_total. Qed.

Global Instance by_purchase_date_desc_trans : Transitive by_purchase_date_desc.
Proof. intros x y z. apply desc_trans. Qed.

(** The rows of the three-way join: each purchase with its product, if
    [product_id] names one, and its supplier, if [supplier_id] names
    one. *)
Lemma elem_of_Purchase_Product_Supplier (t : Tables) (pu : Purchase.row)
    (pr : option Product.row) (s : option Supplier.row) :
  (pu, pr, s) ∈ Purchase_Product_Supplier t ↔
  pu ∈ Purchase t ∧
  match pr with
  | Some pr => pr ∈ Product t ∧ Purchase.product_id pu = Some (Product.id pr)
  | None => ∀ pr, pr ∈ Product t → Purchase.product_id pu ≠ Some (Product.id pr)
  end ∧
  match s with
  | Some s => s ∈ Supplier t ∧ Purchase.supplier_id pu = Some (Supplier.id s)
  | None => ∀ s, s ∈ Supplier t → Purchase.supplier_id pu ≠ Some (Supplier.id s)
  end.
Proof.
  unfold Purchase_Product_Supplier. rewrite !elem_of_left_join. simpl.
  assert (Hpr : match pr with
      | Some b => b ∈ Product t ∧
          bool_decide (Purchase.product_id pu = Some (Product.id b)) = true
      | None => ∀ b, b ∈ Product t →
          bool_decide (Purchase.product_id pu = Some (Product.id b)) = false
      end ↔ match pr with
      | Some pr => pr ∈ Product t ∧ Purchase.product_id pu = Some (Product.id pr)
      | None => ∀ pr, pr ∈ Product t → Purchase.product_id pu ≠ Some (Product.id pr)
      end).
  { destruct pr; [by rewrite bool_decide_eq_true|].
    by setoid_rewrite bool_decide_eq_false. }
  assert (Hs : match s with
      | Some b => b ∈ Supplier t ∧
          bool_decide (Purchase.supplier_id pu = Some (Supplier.id b)) = true
      | None => ∀ b, b ∈ Supplier t →
          bool_decide (Purchase.supplier_id pu = Some (Supplier.id b)) = false
      end ↔ match s with
      | Some s => s ∈ Supplier t ∧ Purchase.supplier_id pu = Some (Supplier.id s)
      | None => ∀ s, s ∈ Supplier t → Purchase.supplier_id pu ≠ Some (Supplier.id s)
      end).
  { destruct s; [by rewrite bool_decide_eq_true|].
    by setoid_rewrite bool_decide_eq_false. }
  tauto.
Qed.

Lemma purchases_run (req : Request) (w : World) :
  purchases req w =
    (Return (render_purchase_html
               (select_purchases {| txn := tables w |})
               (select_products {| txn := tables w |})
               (select_suppliers {| txn := tables w |})), w).
Proof. reflexivity. Qed.

Lemma filter_key_at_most_one {B} (key : B → Z) (x : option Z) (r : list B) :
  NoDup (key <$> r) →
  (length (List.filter (λ b, bool_decide (x = Some (key b))) r) ≤ 1)%nat.
Proof.
  induction r as [|b r IH]; intros Hnd; simpl; [lia|].
  rewrite fmap_cons in Hnd. apply NoDup_cons in Hnd as [Hb Hnd].
  destruct (bool_decide (x = Some (key b))) eqn:Hx; [|by apply IH].
  apply bool_decide_eq_true in Hx.
  destruct (List.filter _ r) as [|b' m] eqn:Hf; simpl; [lia|].
  exfalso. apply Hb.
  assert (Hb' : In b' (List.filter (λ b, bool_decide (x = Some (key b))) r)).
  { rewrite Hf. by left. }
  apply filter_In in Hb' as [Hin Hx'%bool_decide_eq_true].
  assert (key b = key b') as -> by congruence.
  by apply list_elem_of_fmap_2, list_elem_of_In.
Qed.

Lemma left_join_fst {A B} (on : A → B → bool) (l : list A) (r : list B) :
  (∀ a, length (List.filter (on a) r) ≤ 1)%nat →
  fst <$> left_join on l r = l.
Proof.
  intros Hone. unfold left_join.
  induction l as [|a l IH]; [done|].
  rewrite bind_cons, fmap_app, IH.
  specialize (Hone a).
  destruct (List.filter (on a) r) as [|b [|b' m]]; simpl in *; [done|done|lia].
Qed.

Lemma select_purchases_each_once (t : Tables) :
  lookup_keys_unique t →
  PurchaseListing.id <$> select_purchases {| txn := t |}
    ≡ₚ Purchase.id <$> Purchase t ∧
  length (select_purchases {| txn := t |}) = length (Purchase t).
Proof.
  intros [Hpr Hsu].
  assert (Hids : PurchaseListing.id <$> select_purchases {| txn := t |}
                 ≡ₚ Purchase.id <$> Purchase t).
  { unfold select_purchases. rewrite merge_sort_Permutation.
    rewrite <- list_fmap_compose.
    assert (Hfst : fst <$> (fst <$> Purchase_Product_Supplier t) = Purchase t).
    { unfold Purchase_Product_Supplier.
      rewrite left_join_fst
        by (intros [pu pr]; by apply (filter_key_at_most_one Supplier.id)).
      apply left_join_fst.
      intros pu. by apply (filter_key_at_most_one Product.id). }
    rewrite <- Hfst, <- !list_fmap_compose.
    assert (Heq : PurchaseListing.id ∘ listing_row
                  <$> Purchase_Product_Supplier t
                  = Purchase.id ∘ fst ∘ fst <$> Purchase_Product_Supplier t).
    { apply list_fmap_ext. by intros i [[pu pr] su]. }
    simpl. by rewrite Heq. }
  split; [exact Hids|].
  apply Permutation_length in Hids. by rewrite !length_fmap in Hids.
Qed.

Lemma elem_of_select_purchases (t : Tables) (r : PurchaseListing.row) :
  r ∈ select_purchases {| txn := t |} ↔
  ∃ pu, pu ∈ Purchase t ∧ lists t pu r.
Proof.
  unfold select_purchases. rewrite merge_sort_Permutation, list_elem_of_fmap.
  simpl. split.
  - intros ([[pu pr] su] & -> & Hin).
    apply elem_of_Purchase_Product_Supplier in Hin as (Hpu & Hpr & Hsu).
    exists pu. split; [done|]. unfold lists. simpl.
    repeat split.
    + destruct pr as [pr|]; [left; exists pr; by destruct Hpr | by right].
    + destruct su as [su|]; [left; exists su; by destruct Hsu | by right].
  - intros (pu & Hpu & H1 & H2 & H3 & H4 & H5 & H6 & H7 & Hpr & Hsu).
    assert (∃ pr, match pr with
                  | Some pr => pr ∈ Product t ∧
                      Purchase.product_id pu = Some (Product.id pr)
                  | None => ∀ pr, pr ∈ Product t →
                      Purchase.product_id pu ≠ Some (Product.id pr)
                  end ∧
                  PurchaseListing.product_name r = Product.product_name <$> pr)
      as (pr & Hjpr & Hnpr).
    { destruct Hpr as [(pr & ? & ? & ?) | [? ?]];
        [by exists (Some pr) | by exists None]. }
    assert (∃ su, match su with
                  | Some su => su ∈ Supplier t ∧
                      Purchase.supplier_id pu = Some (Supplier.id su)
                  | None => ∀ su, su ∈ Supplier t →
                      Purchase.supplier_id pu ≠ Some (Supplier.id su)
                  end ∧
                  PurchaseListing.supplier_name r = Supplier.supplier_name <$> su)
      as (su & Hjsu & Hnsu).
    { destruct Hsu as [(su & ? & ? & ?) | [? ?]];
        [by exists (Some su) | by exists None]. }
    exists (pu, pr, su). split.
    + destruct r. simpl in *. by subst.
    + by apply elem_of_Purchase_Product_Supplier.
Qed.

Lemma StronglySorted_lookup {A} (R : relation A) (l : list A)
    (i j : nat) (x y : A) :
  StronglySorted R l → (i < j)%nat → l !! i = Some x → l !! j = Some y → R x y.
Proof.
  intros Hs. revert i j.
  induction Hs as [|a l Hs IH Hall]; intros i j Hij Hi Hj; [done|].
  destruct j as [|j]; [lia|]. destruct i as [|i]; simpl in *.
  - injection Hi as <-. apply (proj1 (Forall_forall _ _) Hall).
    by apply list_elem_of_lookup_2 with j.
  - apply (IH i j); [lia|done|done].
Qed.

(** C7. [/purchases] only reads: it leaves the world, hence every
    table, as it was.  The purchase list it renders is the left join of
    [Purchase] with [Product] and [Supplier]: a row is rendered exactly
    when it lists a purchase with the names of its product and of its
    supplier, or NULL where the purchase has none; the rows are in
    descending order of [purchase_date]; and, when the ids of [Product]
    and [Supplier] are unique, every purchase is listed exactly once.
    The products and the suppliers rendered with it are all the rows of
    [Product] and of [Supplier]. *)
Theorem purchases_pure_read (req : Request) (w : World) :
  ∃ ps prods sups,
    purchases req w = (Return (render_purchase_html ps prods sups), w) ∧
    (∀ r, r ∈ ps ↔ ∃ pu, pu ∈ Purchase (tables w) ∧ lists (tables w) pu r) ∧
    newest_first ps ∧
    ps ≡ₚ listing_row <$> Purchase_Product_Supplier (tables w) ∧
    StronglySorted by_purchase_date_desc ps ∧
    prods ≡ₚ (λ p, (Product.id p, Product.product_name p)) <$> Product (tables w) ∧
    sups ≡ₚ (λ s, (Supplier.id s, Supplier.supplier_name s)) <$> Supplier (tables w) ∧
    (lookup_keys_unique (tables w) →
     PurchaseListing.id <$> ps ≡ₚ Purchase.id <$> Purchase (tables w) ∧
     length ps = length (Purchase (tables w))) ∧
    (truthy (default VNone (session w !! "logged_in")) = true →
     view_function Purchases req w = purchases req w).
Proof.
  eexists _, _, _. split; [apply purchases_run|].
  assert (Hsorted : StronglySorted by_purchase_date_desc
                      (select_purchases {| txn := tables w |})).
  { unfold select_purchases. apply StronglySorted_merge_sort; apply _. }
  split; [intros r; apply elem_of_select_purchases|].
  split.
  { intros i j x y Hij Hi Hj.
    apply (StronglySorted_lookup _ _ i j x y Hsorted Hij Hi Hj). }
  unfold select_products, select_suppliers; simpl.
  split; [apply merge_sort_Permutation|].
  split; [exact Hsorted|].
  split; [apply merge_sort_Permutation|].
  split; [apply merge_sort_Permutation|].
  split; [apply select_purchases_each_once|].
  intros Hin. by apply login_required_passes.
Qed.

(** ** Stock-in *)

Lemma bound_strings (pid sid exp : string) (p s d : Z) :
  pg_integer pid = Some p → pg_integer sid = Some s → pg_date exp = Some d →
  negb (nul_free pid && nul_free sid && nul_free exp) = false.
Proof.
  intros Hp Hs Hd.
  by rewrite (pg_integer_nul_free _ _ Hp), (pg_integer_nul_free _ _ Hs),
    (pg_date_nul_free _ _ Hd).
Qed.

Lemma insert_Purchase_accepted (w : World) (pid sid exp : string) (qty p s d : Z) :
  insert_accepted (tables w) pid sid qty exp p s d →
  insert_Purchase {| txn := tables w |} pid sid qty qty exp w =
    (Return {| txn := add_Purchase (stock_in_row w p s qty d) (tables w) |},
     set_sequences
       (<["purchase_id_seq" := next_id "purchase_id_seq" w]> (sequences w)) w).
Proof.
  intros (Hp & Hs & Hq & Hd & Hpe & Hse).
  unfold insert_Purchase, Purchase_columns.
  rewrite (bound_strings pid sid exp p s d Hp Hs Hd), Hp, Hs, Hq, Hd. run.
  rewrite Hpe, Hse. reflexivity.
Qed.

Lemma insert_Purchase_raises (conn : Connection) (w w1 : World)
    (pid sid exp : string) (pq rq : Z) (e : exn) :
  insert_Purchase conn pid sid pq rq exp w = (Raise e, w1) →
  (e = ValueError ∨ e = DataError ∨ e = IntegrityError) ∧
  tables w1 = tables w ∧ session w1 = session w.
Proof.
  unfold insert_Purchase.
  destruct (negb _); [run; intros [= <- <-]; auto|].
  destruct (Purchase_columns pid sid pq rq exp) as [[[[[p s] pq'] rq'] d]|]; run.
  - destruct (Product_exists (txn conn) p && Supplier_exists (txn conn) s);
      intros [= <- <-]; auto.
  - intros [= <- <-]; auto.
Qed.

(** The world a refused [INSERT] leaves: untouched when the driver or
    a conversion refused a value, with the counter of ids advanced when
    a constraint refused the row. *)
Lemma insert_Purchase_raise_world (conn : Connection) (w w1 : World)
    (pid sid exp : string) (pq rq : Z) (e : exn) :
  insert_Purchase conn pid sid pq rq exp w = (Raise e, w1) →
  ((e = ValueError ∨ e = DataError) ∧ w1 = w) ∨
  (e = IntegrityError ∧ w1 = bump "purchase_id_seq" w).
Proof.
  unfold insert_Purchase.
  destruct (negb _); [run; intros [= <- <-]; auto|].
  destruct (Purchase_columns pid sid pq rq exp) as [[[[[p s] pq'] rq'] d]|]; run.
  - destruct (Product_exists (txn conn) p && Supplier_exists (txn conn) s);
      intros [= <- <-]. by right.
  - intros [= <- <-]. auto.
Qed.

(** A product or supplier id that names no row violates the foreign
    key. *)
Lemma insert_Purchase_foreign_key (conn : Connection) (w : World)
    (pid sid exp : string) (qty p s d : Z) :
  pg_integer pid = Some p → pg_integer sid = Some s →
  in_integer_range qty = true → pg_date exp = Some d →
  Product_exists (txn conn) p = false ∨ Supplier_exists (txn conn) s = false →
  ∃ w1, insert_Purchase conn pid sid qty qty exp w = (Raise IntegrityError, w1).
Proof.
  intros Hp Hs Hq Hd Hfk.
  unfold insert_Purchase, Purchase_columns.
  rewrite (bound_strings pid sid exp p s d Hp Hs Hd), Hp, Hs, Hq, Hd. run.
  destruct Hfk as [-> | ->]; rewrite ?andb_false_r; simpl; eauto.
Qed.

(** The [INSERT] is either accepted or raises. *)
Lemma insert_Purchase_total (w : World) (pid sid exp : string) (qty : Z) :
  (∃ p s d, insert_accepted (tables w) pid sid qty exp p s d) ∨
  (∃ e w1, insert_Purchase {| txn := tables w |} pid sid qty qty exp w
           = (Raise e, w1)).
Proof.
  unfold insert_accepted, insert_Purchase, Purchase_columns.
  destruct (negb _); [right; by eauto|].
  destruct (pg_integer pid) as [p|]; simpl; [|right; eauto].
  destruct (pg_integer sid) as [s|]; simpl; [|right; eauto].
  destruct (in_integer_range qty); simpl; [|right; eauto].
  destruct (pg_date exp) as [d|]; simpl; [|right; eauto].
  run. destruct (Product_exists (tables w) p) eqn:Hp; simpl; [|right; eauto].
  destruct (Supplier_exists (tables w) s) eqn:Hs; simpl; [|right; eauto].
  left. exists p, s, d. done.
Qed.

Lemma insert_Purchase_session (conn : Connection) (w : World)
    (pid sid exp : string) (pq rq : Z) :
  session (insert_Purchase conn pid sid pq rq exp w).2 = session w.
Proof.
  unfold insert_Purchase. destruct (negb _); [done|].
  destruct (Purchase_columns pid sid pq rq exp) as [[[[[p s] pq'] rq'] d]|]; run;
    [|done].
  by destruct (Product_exists (txn conn) p && Supplier_exists (txn conn) s).
Qed.

Lemma log_activity_session (v : value) (a : string) (w : World) :
  session (log_activity v a w).2 = session w.
Proof.
  unfold log_activity, insert_user_activity. run. by destruct (sql_text v).
Qed.

Local Arguments insert_Purchase : simpl never.
Local Arguments log_activity : simpl never.


Lemma add_purchase_rejected (req : Request) (w w1 : World)
    (pid sid q exp : string) (qty : Z) (e : exn) :
  stock_in_form req pid sid q exp →
  py_int q = Some qty →
  insert_Purchase {| txn := tables w |} pid sid qty qty exp w = (Raise e, w1) →
  add_purchase req w = (Raise e, w1).
Proof.
  intros (Hpid & Hsid & Hq & Hexp) Hint Hins.
  unfold add_purchase, request_form, connect, mbind, M_bind.
  rewrite Hpid; simpl. rewrite Hsid; simpl. rewrite Hq; simpl.
  rewrite Hint; simpl. rewrite Hexp; simpl.
  rewrite Hins. reflexivity.
Qed.



(** C5, with the one change it needs.  When the [INSERT] of
    [POST /add-purchase] fails, because the driver refuses to bind a
    value or the server refuses a value or the row, the handler raises
    that error; nothing catches it, so the client gets a 500.  Every
    table is as it was before the request: no [Purchase] row and no
    [user_activity] row is added, and the session is untouched.  The
    rest of the database is as it was too when a value was refused;
    when the row was refused by a constraint, the counter of [Purchase]
    ids has advanced by one, and that is the only change. *)
Theorem add_purchase_insert_error (req : Request) (w w1 : World)
    (pid sid q exp : string) (qty : Z) (e : exn) :
  truthy (default VNone (session w !! "logged_in")) = true →
  stock_in_form req pid sid q exp →
  py_int q = Some qty →
  insert_Purchase {| txn := tables w |} pid sid qty qty exp w = (Raise e, w1) →
  ∃ w', view_function AddPurchase req w = (Raise e, w') ∧
        (e = ValueError ∨ e = DataError ∨ e = IntegrityError) ∧
        status_code (@Raise response e) = 500 ∧
        tables w' = tables w ∧
        Purchase (tables w') = Purchase (tables w) ∧
        user_activity (tables w') = user_activity (tables w) ∧
        session w' = session w ∧
        (((e = ValueError ∨ e = DataError) ∧ w' = w) ∨
         (e = IntegrityError ∧ w' = bump "purchase_id_seq" w ∧
          last_value "purchase_id_seq" w'
            = last_value "purchase_id_seq" w + 1)).
Proof.
  intros Hin Hform Hint Hins. exists w1.
  destruct (insert_Purchase_raises _ _ _ _ _ _ _ _ _ Hins) as (He & Ht & Hs).
  split.
  { simpl. rewrite login_required_passes by done.
    by apply (add_purchase_rejected req w w1 pid sid q exp qty e). }
  rewrite Ht. repeat split; try done.
  - by destruct He as [-> | [-> | ->]].
  - destruct (insert_Purchase_raise_world _ _ _ _ _ _ _ _ _ Hins)
      as [[He' ->] | [-> ->]]; [by left|].
    right. repeat split.
    unfold last_value, bump, next_id. simpl. by rewrite lookup_insert_eq.
Qed.

(** ** Missing and malformed form fields *)

Lemma auth_missing_field (req : Request) (w : World) :
  form req !! "username" = None ∨ form req !! "password" = None →
  ∃ key, auth req w = (Raise (BadRequestKeyError key), w).
Proof.
  intros Hbad. rewrite auth_run.
  destruct (form req !! "username") as [u|] eqn:Hu; simpl; [|eauto].
  destruct (form req !! "password") as [p|] eqn:Hp; simpl; [|eauto].
  destruct Hbad; discriminate.
Qed.

Lemma add_purchase_bad_form (req : Request) (w : World) :
  bad_stock_in_form req →
  ∃ e, add_purchase req w = (Raise e, w) ∧
       (e = ValueError ∨ ∃ key, e = BadRequestKeyError key).
Proof.
  intros Hbad. unfold add_purchase, request_form, connect, mbind, M_bind; simpl.
  destruct (form req !! "product_id") as [pid|] eqn:Hpid; simpl; [|eauto].
  destruct (form req !! "supplier_id") as [sid|] eqn:Hsid; simpl; [|eauto].
  destruct (form req !! "purchase_quantity") as [q|] eqn:Hq; simpl; [|eauto].
  destruct (py_int q) as [qty|] eqn:Hint; simpl; [|eauto].
  destruct (form req !! "expiration_date") as [exp|] eqn:Hexp; simpl; [|eauto].
  exfalso. destruct Hbad as [?|[?|[?|[?|(q' & Hq' & Hint')]]]]; congruence.
Qed.

(** C9. A [POST /auth] without [username] or without [password] makes
    the handler raise on the access to the form.  A [POST /add-purchase]
    without one of its four fields, or whose [purchase_quantity] is not
    an integer, makes the handler raise too, on the access to the form
    or on the conversion of the quantity, before any statement is sent
    to the database.  Neither returns a response, and the world is as it
    was. *)
Theorem bad_form_raises (req : Request) (w : World) :
  (form req !! "username" = None ∨ form req !! "password" = None →
   ∃ key, auth req w = (Raise (BadRequestKeyError key), w) ∧
          view_function Auth req w = auth req w) ∧
  (bad_stock_in_form req →
   ∃ e, add_purchase req w = (Raise e, w) ∧
        (e = ValueError ∨ ∃ key, e = BadRequestKeyError key) ∧
        (truthy (default VNone (session w !! "logged_in")) = true →
         view_function AddPurchase req w = (Raise e, w))).
Proof.
  split.
  - intros Hbad. destruct (auth_missing_field req w Hbad) as [key Hrun]. eauto.
  - intros Hbad. destruct (add_purchase_bad_form req w Hbad) as (e & Hrun & He).
    exists e. repeat split; try done.
    intros Hin. simpl. by rewrite login_required_passes.
Qed.

(** ** The audit trail *)



(** ** The sessions the program creates *)

Lemma authenticated_session_of (user : users.row) (s : gmap string value) :
  authenticated (session_of user ∪ s).
Proof.
  exists (users.username user).
  destruct (session_of_lookup user s) as (Hin & _ & Hname & _). done.
Qed.

Lemma auth_session_cases (req : Request) (w : World) :
  session (auth req w).2 = session w ∨
  ∃ user, session (auth req w).2 = session_of user ∪ session w.
Proof.
  rewrite auth_run.
  destruct (form req !! "username") as [u|]; simpl; [|by left].
  destruct (form req !! "password") as [p|]; simpl; [|by left].
  destruct (nul_free u); [|by left].
  destruct (head _) as [user|]; [|by left].
  destruct (check_password_hash _ _) as [[|]|]; [|by left|by left].
  right. by exists user.
Qed.

Lemma add_purchase_session (req : Request) (w : World) :
  session (add_purchase req w).2 = session w.
Proof.
  unfold add_purchase, request_form, connect, commit, close, session_getitem,
    mbind, M_bind, mret, M_ret; simpl.
  destruct (form req !! "product_id") as [pid|]; simpl; [|done].
  destruct (form req !! "supplier_id") as [sid|]; simpl; [|done].
  destruct (form req !! "purchase_quantity") as [q|]; simpl; [|done].
  destruct (py_int q) as [qty|]; simpl; [|done].
  destruct (form req !! "expiration_date") as [exp|]; simpl; [|done].
  pose proof (insert_Purchase_session {| txn := tables w |} w pid sid exp qty qty)
    as Hins.
  destruct (insert_Purchase _ _ _ _ _ _ _) as [[conn|e] w1]; simpl in *; [|done].
  destruct (session w1 !! "username") as [v|]; simpl; [|done].
  pose proof (log_activity_session v "Added stock-in"
                (set_tables (txn conn) w1)) as Hlog.
  destruct (log_activity _ _ _) as [[[]|e] w2]; simpl in *; congruence.
Qed.

Lemma login_required_session (f : Handler) (req : Request) (w : World) :
  session (f req w).2 = session w →
  session (login_required f req w).2 = session w.
Proof.
  intros Hf. unfold login_required. run.
  by destruct (truthy (default VNone (session w !! "logged_in"))).
Qed.

(** Every route keeps the sessions well formed: a true [logged_in] flag
    always comes with the username of the user who logged in. *)
Lemma view_function_session_ok (e : endpoint) (req : Request) (w : World) :
  session_ok (session w) → session_ok (session (view_function e req w).2).
Proof.
  intros Hok. destruct e; simpl.
  - intros Hin. discriminate.
  - destruct (auth_session_cases req w) as [-> | [user ->]]; [done|].
    intros _. apply authenticated_session_of.
  - rewrite logout_session. intros Hin. discriminate.
  - by rewrite login_required_session.
  - by rewrite login_required_session.
  - rewrite login_required_session; [done|]. apply add_purchase_session.
Qed.

(** ** What a request may change *)

Lemma log_activity_run (v : value) (a : string) (w : World) :
  log_activity v a w =
    match sql_text v with
    | Some u => (Return (), logged u a w)
    | None => (Raise IntegrityError, bump "user_activity_id_seq" w)
    end.
Proof.
  unfold log_activity, insert_user_activity. run.
  destruct (sql_text v); reflexivity.
Qed.

Lemma log_activity_changes (v : value) (a : string) (w : World) :
  changes w (log_activity v a w).2.
Proof. rewrite log_activity_run. destruct (sql_text v); simpl; constructor. Qed.

Lemma add_purchase_changes (req : Request) (w : World) :
  changes w (add_purchase req w).2.
Proof.
  unfold add_purchase, request_form, connect, commit, close, session_getitem,
    mbind, M_bind, mret, M_ret; simpl.
  destruct (form req !! "product_id") as [pid|]; simpl; [|constructor].
  destruct (form req !! "supplier_id") as [sid|]; simpl; [|constructor].
  destruct (form req !! "purchase_quantity") as [q|]; simpl; [|constructor].
  destruct (py_int q) as [qty|]; simpl; [|constructor].
  destruct (form req !! "expiration_date") as [exp|]; simpl; [|constructor].
  destruct (insert_Purchase_total w pid sid exp qty)
    as [(p & s & d & Hacc) | (e & w1 & Hins)].
  - rewrite (insert_Purchase_accepted w pid sid exp qty p s d Hacc). simpl.
    destruct (session w !! "username") as [v|]; simpl;
      [|apply (changes_stocked p s qty d w)].
    pose proof (log_activity_changes v "Added stock-in" (stocked w p s qty d))
      as Hlog.
    apply (changes_trans _ (stocked w p s qty d)); [constructor|].
    unfold stocked in *.
    destruct (log_activity _ _ _) as [[[]|e] w2]; exact Hlog.
  - rewrite Hins. simpl.
    destruct (insert_Purchase_raise_world _ _ _ _ _ _ _ _ _ Hins)
      as [[_ ->] | [_ ->]]; constructor.
Qed.

Lemma auth_changes (req : Request) (w : World) : changes w (auth req w).2.
Proof.
  rewrite auth_run.
  destruct (form req !! "username") as [u|]; simpl; [|constructor].
  destruct (form req !! "password") as [p|]; simpl; [|constructor].
  destruct (nul_free u); [|constructor].
  destruct (head _) as [user|]; [|constructor].
  destruct (check_password_hash _ _) as [[|]|]; try constructor.
  apply (changes_trans _ (set_session (session_of user ∪ session w) w));
    constructor.
Qed.

Lemma logout_changes (req : Request) (w : World) : changes w (logout req w).2.
Proof.
  rewrite logout_run. simpl.
  destruct (sql_text _) as [u|]; [|constructor].
  destruct (truthy _); [|constructor].
  apply (changes_trans _ (logged u "Logged out" w)); constructor.
Qed.

Lemma login_required_changes (f : Handler) (req : Request) (w : World) :
  changes w (f req w).2 → changes w (login_required f req w).2.
Proof.
  intros Hf. unfold login_required. run.
  destruct (truthy (default VNone (session w !! "logged_in"))); simpl;
    [exact Hf | constructor].
Qed.

Lemma view_function_changes (e : endpoint) (req : Request) (w : World) :
  changes w (view_function e req w).2.
Proof.
  destruct e; simpl.
  - apply (changes_session ∅ w).
  - apply auth_changes.
  - apply logout_changes.
  - apply login_required_changes. constructor.
  - apply login_required_changes. constructor.
  - apply login_required_changes, add_purchase_changes.
Qed.

Lemma serve_changes (rs : list (endpoint * Request)) (w : World) :
  changes w (serve rs w).
Proof.
  revert w. induction rs as [|[e req] rs IH]; intros w; simpl; [constructor|].
  eapply changes_trans; [apply view_function_changes | apply IH].
Qed.

Lemma changes_grown (w w' : World) : changes w w' → grown w w'.
Proof.
  induction 1 as [w | w1 w2 w3 _ IH1 _ IH2 | s w | seq w | u a w | p s qty d w].
  - by repeat split.
  - destruct IH1 as (?&?&?&?&?&?&?&?&?), IH2 as (?&?&?&?&?&?&?&?&?).
    repeat split; try congruence; by etrans.
  - by repeat split.
  - by repeat split.
  - repeat split; try done. simpl. by apply prefix_app_r.
  - repeat split; try done. simpl. by apply prefix_app_r.
Qed.

Lemma last_value_bump (seq seq' : string) (w : World) :
  last_value seq' w ≤ last_value seq' (bump seq w).
Proof.
  unfold last_value, bump, next_id. simpl.
  destruct (decide (seq = seq')) as [->|Hne].
  - rewrite lookup_insert_eq. simpl. lia.
  - by rewrite lookup_insert_ne.
Qed.

Lemma NoDup_snoc_fresh {A} (key : A → Z) (l : list A) (x : A) (bound : Z) :
  Forall (λ r, key r ≤ bound) l → bound < key x →
  NoDup (key <$> l) → NoDup (key <$> (l ++ [x])).
Proof.
  intros Hle Hlt Hnd. rewrite fmap_app. apply NoDup_app. split; [done|].
  split; [|apply NoDup_singleton].
  intros k Hk Hx. apply list_elem_of_singleton in Hx. subst k.
  apply list_elem_of_fmap in Hk as (r & Heq & Hr).
  pose proof (proj1 (Forall_forall _ _) Hle r Hr) as Hr'. simpl in Hr'. lia.
Qed.

Lemma changes_serial_ok (w w' : World) : changes w w' → serial_ok w → serial_ok w'.
Proof.
  induction 1 as [w | w1 w2 w3 _ IH1 _ IH2 | s w | seq w | u a w | p s qty d w];
    [done | by auto | done | | |]; intros (Hp & Ha & Hnp & Hna).
  - repeat split; try done; simpl.
    + eapply Forall_impl; [exact Hp|]. simpl. intros r Hr.
      pose proof (last_value_bump seq "purchase_id_seq" w). lia.
    + eapply Forall_impl; [exact Ha|]. simpl. intros r Hr.
      pose proof (last_value_bump seq "user_activity_id_seq" w). lia.
  - assert (Hnew : last_value "user_activity_id_seq" (logged u a w)
                   = last_value "user_activity_id_seq" w + 1).
    { unfold last_value, logged, next_id. simpl. by rewrite lookup_insert_eq. }
    assert (Hsame : last_value "purchase_id_seq" (logged u a w)
                    = last_value "purchase_id_seq" w).
    { unfold last_value, logged. simpl. by rewrite lookup_insert_ne. }
    repeat split; simpl.
    + rewrite Hsame. exact Hp.
    + rewrite Hnew. apply Forall_app. split.
      * eapply Forall_impl; [exact Ha|]. simpl. intros r Hr. lia.
      * apply Forall_singleton. unfold audit_row, next_id, last_value. simpl. lia.
    + exact Hnp.
    + apply (NoDup_snoc_fresh user_activity.id _ _
               (last_value "user_activity_id_seq" w)); try done.
      unfold audit_row, next_id, last_value. simpl. lia.
  - assert (Hnew : last_value "purchase_id_seq" (stocked w p s qty d)
                   = last_value "purchase_id_seq" w + 1).
    { unfold last_value, stocked, next_id. simpl. by rewrite lookup_insert_eq. }
    assert (Hsame : last_value "user_activity_id_seq" (stocked w p s qty d)
                    = last_value "user_activity_id_seq" w).
    { unfold last_value, stocked. simpl. by rewrite lookup_insert_ne. }
    repeat split; simpl.
    + rewrite Hnew. apply Forall_app. split.
      * eapply Forall_impl; [exact Hp|]. simpl. intros r Hr. lia.
      * apply Forall_singleton. unfold stock_in_row, next_id, last_value. simpl. lia.
    + rewrite Hsame. exact Ha.
    + apply (NoDup_snoc_fresh Purchase.id _ _
               (last_value "purchase_id_seq" w)); try done.
      unfold stock_in_row, next_id, last_value. simpl. lia.
    + exact Hna.
Qed.

(** X1. Along any sequence of requests of one client the session stays
    well formed: whenever [logged_in] is true the session is the one a
    successful [auth] wrote, with a string under [username], so that
    [session["username"]] in [add_purchase] finds its key. *)
Theorem serve_session_ok (rs : list (endpoint * Request)) (w : World) :
  session_ok (session w) → session_ok (session (serve rs w)).
Proof.
  revert w. induction rs as [|[e req] rs IH]; intros w Hok; simpl; [done|].
  apply IH. by apply view_function_session_ok.
Qed.

(** X2. No sequence of requests updates or deletes a row: the tables
    [users], [Category], [Product], [Supplier], [Order] and
    [notification] are never written, [user_activity] and [Purchase]
    only get rows appended, and the clock is left alone. *)
Theorem serve_grown (rs : list (endpoint * Request)) (w : World) :
  grown w (serve rs w).
Proof. apply changes_grown, serve_changes. Qed.

(** X3. The ids the program hands out stay distinct: if the ids of
    [Purchase] and [user_activity] are pairwise distinct and not beyond
    the last value of their counters, they still are after any sequence
    of requests, including requests whose insert was refused. *)
Theorem serve_serial_ok (rs : list (endpoint * Request)) (w : World) :
  serial_ok w → serial_ok (serve rs w).
Proof. apply changes_serial_ok, serve_changes. Qed.

(** X4. What [/dashboard] shows is out of reach of the routes: after
    any sequence of requests, stock-ins included, it renders the same
    three numbers as before, since no route writes to [Product]. *)
Theorem dashboard_unchanged_by_requests (rs : list (endpoint * Request))
    (req : Request) (w : World) :
  (dashboard req (serve rs w)).1 = (dashboard req w).1.
Proof.
  destruct (changes_grown _ _ (serve_changes rs w)) as (_ & _ & Hprod & _).
  rewrite !dashboard_run. simpl. by rewrite Hprod.
Qed.

(** ** Stock-in and the ledger *)




(** X6. When the ids of [Product] and of [Supplier] are unique, the
    ledger lists every purchase exactly once, whether or not its
    product and supplier still exist: the ids of the rendered rows are
    those of [Purchase], and there are as many rows as purchases. *)
Theorem purchases_lists_each_once (req : Request) (w : World) :
  lookup_keys_unique (tables w) →
  ∃ ps prods sups,
    purchases req w = (Return (render_purchase_html ps prods sups), w) ∧
    PurchaseListing.id <$> ps ≡ₚ Purchase.id <$> Purchase (tables w) ∧
    length ps = length (Purchase (tables w)).
Proof.
  intros Huniq. eexists _, _, _. split; [apply purchases_run|].
  by apply select_purchases_each_once.
Qed.

(** ** The dashboard and the rows it reads *)

Lemma Zsum_Permutation (l l' : list Z) : l ≡ₚ l' → Zsum l = Zsum l'.
Proof. unfold Zsum. induction 1; simpl; lia. Qed.

(** X7. [/dashboard] depends on the active products only, and not on
    their order: two databases whose active products are the same up to
    order get the same three numbers, whatever their inactive products
    and their other tables hold. *)
Theorem dashboard_reads_active_products (req : Request) (w1 w2 : World) :
  filter active (Product (tables w1)) ≡ₚ filter active (Product (tables w2)) →
  (dashboard req w1).1 = (dashboard req w2).1.
Proof.
  intros Hperm. rewrite !dashboard_run. simpl.
  rewrite (Zsum_Permutation _ _ (fmap_Permutation stock _ _ Hperm)).
  by rewrite Hperm.
Qed.

(** ** Logging in and out, in sequence *)






(** ** Stock-in that goes wrong *)

(** X11. The three ways a stock-in is refused.  A product id, a
    supplier id or a date that holds a NUL character is refused by the
    driver: [ValueError], and the whole world is as it was.  Strings
    the driver binds but the server does not convert (an id or a date
    it rejects, or a quantity outside the range of [INTEGER]) raise
    [DataError], and the whole world is as it was.  Values that convert
    but name no product or no supplier raise [IntegrityError]; the
    tables are as they were, and the counter of [Purchase] ids has
    advanced by one, so that the refused request has used up an id. *)
Theorem add_purchase_refusals (req : Request) (w : World)
    (pid sid q exp : string) (qty : Z) :
  truthy (default VNone (session w !! "logged_in")) = true →
  stock_in_form req pid sid q exp →
  py_int q = Some qty →
  (nul_free pid = false ∨ nul_free sid = false ∨ nul_free exp = false →
   view_function AddPurchase req w = (Raise ValueError, w)) ∧
  (nul_free pid = true → nul_free sid = true → nul_free exp = true →
   pg_integer pid = None ∨ pg_integer sid = None ∨
   in_integer_range qty = false ∨ pg_date exp = None →
   view_function AddPurchase req w = (Raise DataError, w)) ∧
  (∀ p s d,
     pg_integer pid = Some p → pg_integer sid = Some s →
     in_integer_range qty = true → pg_date exp = Some d →
     Product_exists (tables w) p = false ∨ Supplier_exists (tables w) s = false →
     view_function AddPurchase req w
       = (Raise IntegrityError, bump "purchase_id_seq" w) ∧
     tables (bump "purchase_id_seq" w) = tables w ∧
     last_value "purchase_id_seq" (bump "purchase_id_seq" w)
       = last_value "purchase_id_seq" w + 1).
Proof.
  intros Hin Hform Hint. split; [|split].
  - intros Hnul. simpl. rewrite login_required_passes by done.
    apply (add_purchase_rejected req w w pid sid q exp qty ValueError Hform Hint).
    unfold insert_Purchase.
    destruct Hnul as [-> | [-> | ->]]; by rewrite ?andb_false_r.
  - intros Hn1 Hn2 Hn3 Hbad. simpl. rewrite login_required_passes by done.
    apply (add_purchase_rejected req w w pid sid q exp qty DataError Hform Hint).
    unfold insert_Purchase, Purchase_columns. rewrite Hn1, Hn2, Hn3. simpl.
    destruct (pg_integer pid) as [p|]; simpl; [|done].
    destruct (pg_integer sid) as [s|]; simpl; [|done].
    destruct (in_integer_range qty); simpl; [|done].
    destruct (pg_date exp) as [d|]; simpl; [|done].
    destruct Hbad as [?|[?|[?|?]]]; discriminate.
  - intros p s d Hp Hs Hq Hd Hfk. split; [|split].
    + simpl. rewrite login_required_passes by done.
      apply (add_purchase_rejected req w _ pid sid q exp qty IntegrityError
               Hform Hint).
      unfold insert_Purchase, Purchase_columns.
      rewrite (bound_strings pid sid exp p s d Hp Hs Hd), Hp, Hs, Hq, Hd. run.
      destruct Hfk as [-> | ->]; rewrite ?andb_false_r; reflexivity.
    + reflexivity.
    + unfold last_value, bump, next_id. simpl. by rewrite lookup_insert_eq.
Qed.


(** ** Rejected logins *)

(** X13. A rejected login does not tell why: a [POST /auth] for a
    username that holds no NUL and is not stored, and one for a stored
    username with a password for which the check returns false, get the
    same answer, the login page with the same message, and both leave
    the world as it was. *)
Theorem auth_rejections_alike (req1 req2 : Request) (w : World)
    (u1 p1 u2 p2 : string) (user : users.row) :
  form req1 !! "username" = Some u1 → form req1 !! "password" = Some p1 →
  form req2 !! "username" = Some u2 → form req2 !! "password" = Some p2 →
  nul_free u1 = true →
  (∀ r, r ∈ users (tables w) → users.username r ≠ u1) →
  users_username_unique (tables w) →
  user ∈ users (tables w) → users.username user = u2 →
  nul_free u2 = true →
  check_password_hash (users.password user) p2 = Some false →
  auth req1 w = auth req2 w ∧
  auth req1 w = (Return (render_index_html (Some "Invalid login")), w).
Proof.
  intros Hu1 Hp1 Hu2 Hp2 Hnul1 Hunknown Huniq Hin Hname Hnul2 Hck.
  assert (H1 : auth req1 w
               = (Return (render_index_html (Some "Invalid login")), w)).
  { apply (auth_rejects req1 w u1 p1); try done.
    intros r Hr. apply head_filter_elem_of in Hr as [Hr Hn].
    by destruct (Hunknown r Hr). }
  assert (H2 : auth req2 w
               = (Return (render_index_html (Some "Invalid login")), w)).
  { apply (auth_rejects req2 w u2 p2); try done.
    intros r Hr. subst u2.
    rewrite (head_filter_unique users.username _ user Huniq Hin) in Hr.
    by injection Hr as <-. }
  by rewrite H1, H2.
Qed.

(** ** Creating the schema *)

Lemma create_if_not_exists_ok {A} (table : option (list A)) (references : list bool) :
  forallb id references = true ∨ is_Some table →
  create_if_not_exists table references = Some (Some (default [] table)).
Proof.
  destruct table as [rows|]; simpl; [done|].
  intros [-> | [rows Hrows]]; done.
Qed.

(** X14. [init_db] can be run on any database: whichever of the eight
    tables exist already, no statement is refused, since each table a
    [REFERENCES] clause names is created before the table that refers
    to it (on its own, the statement for [Purchase] is refused when
    [Product] is missing).  Afterwards the eight tables exist; those
    that existed hold the rows they held, the others are empty.
    Running [init_db] again, or on a database that has its tables,
    changes nothing. *)
Theorem init_db_creates_missing_tables (c : schema.t) :
  (∃ c', init_db c = Some c' ∧
     schema.users c' = Some (default [] (schema.users c)) ∧
     schema.user_activity c' = Some (default [] (schema.user_activity c)) ∧
     schema.Category c' = Some (default [] (schema.Category c)) ∧
     schema.Product c' = Some (default [] (schema.Product c)) ∧
     schema.Supplier c' = Some (default [] (schema.Supplier c)) ∧
     schema.Purchase c' = Some (default [] (schema.Purchase c)) ∧
     schema.Order c' = Some (default [] (schema.Order c)) ∧
     schema.notification c' = Some (default [] (schema.notification c)) ∧
     init_db c' = Some c') ∧
  (∀ t, init_db (catalog_of t) = Some (catalog_of t)) ∧
  (schema.Purchase c = None → schema.Product c = None →
   create_Purchase c = None).
Proof.
  split; [|split].
  - destruct c as [u a ca pr su pu o n].
    eexists. split.
    + unfold init_db, create_users, create_user_activity, create_Category,
        create_Product, create_Supplier, create_Purchase, create_Order,
        create_notification. simpl.
      repeat (rewrite create_if_not_exists_ok by (left; reflexivity); simpl).
      reflexivity.
    + simpl. repeat split.
  - intros t. reflexivity.
  - destruct c as [u a ca pr su pu o n]. simpl. by intros -> ->.
Qed.

End properties.

(** * The properties on concrete requests *)





Lemma dashboard_aggregates_witness :
  @view_function sample_platform Dashboard (post [])
    (world_of pharmacy alice_session)
    = (Return (render_admin_html (VInt 70) (VInt 1) (VInt 1)),
       world_of pharmacy alice_session).
Proof.
  destruct (@dashboard_aggregates sample_platform (post [])
              (world_of pharmacy alice_session)) as (Hrun & Hroute & _).
  - constructor; [by left|]. constructor; [by right|]. constructor.
  - rewrite Hroute; [exact Hrun | reflexivity].
Defined.

Lemma dashboard_null_aggregates_witness :
  dashboard (post []) (world_of empty_tables alice_session)
    = (Return (render_admin_html (VInt 0) (VInt 0) (VInt 0)),
       world_of empty_tables alice_session).
Proof.
  destruct (dashboard_null_aggregates (post [])
              (world_of empty_tables alice_session)) as [_ Hnone].
  apply Hnone. reflexivity.
Defined.

Lemma purchases_pure_read_witness :
  ∃ prods sups,
    @view_function sample_platform Purchases (post [])
      (world_of ledger alice_session)
      = (Return (render_purchase_html [newer_listed; older_listed] prods sups),
         world_of ledger alice_session) ∧
    newest_first [newer_listed; older_listed] ∧
    (∃ pu, pu ∈ Purchase ledger ∧ lists ledger pu newer_listed) ∧
    PurchaseListing.id <$> [newer_listed; older_listed]
      ≡ₚ Purchase.id <$> Purchase ledger.
Proof.
  destruct (@purchases_pure_read sample_platform (post [])
              (world_of ledger alice_session))
    as (ps & prods & sups & Hrun & Hmem & Hord & _ & _ & _ & _ & Honce & Hroute).
  assert (Hps : ps = [newer_listed; older_listed]).
  { assert (Hc : (@purchases sample_platform (post [])
                    (world_of ledger alice_session)).1
                 = Return (render_purchase_html [newer_listed; older_listed]
                             [(1, "Aspirin"); (2, "Gauze")] [(1, "Acme")]))
      by (vm_compute; reflexivity).
    rewrite Hrun in Hc. simpl in Hc. by injection Hc as -> _ _. }
  subst ps. exists prods, sups. split; [|split; [|split]].
  - rewrite Hroute; [exact Hrun | reflexivity].
  - exact Hord.
  - apply Hmem. apply elem_of_cons. left. reflexivity.
  - apply Honce. split; apply (bool_decide_unpack _); vm_compute; exact I.
Defined.



Lemma add_purchase_insert_error_witness :
  (∃ w', @view_function sample_platform AddPurchase unknown_product_request
           (world_of pharmacy alice_session) = (Raise IntegrityError, w') ∧
         tables w' = pharmacy ∧
         w' = bump "purchase_id_seq" (world_of pharmacy alice_session)) ∧
  @view_function sample_platform AddPurchase nul_product_request
    (world_of pharmacy alice_session)
    = (Raise ValueError, world_of pharmacy alice_session).
Proof.
  split.
  - destruct (@add_purchase_insert_error sample_platform unknown_product_request
                (world_of pharmacy alice_session)
                (@insert_Purchase sample_platform {| txn := pharmacy |}
                   "999" "1" 100 100 "2025-01-01"
                   (world_of pharmacy alice_session)).2
                "999" "1" "100" "2025-01-01" 100 IntegrityError)
      as (w' & Hrun & _ & _ & Ht & _ & _ & _ & Hw).
    + reflexivity.
    + repeat split; reflexivity.
    + reflexivity.
    + reflexivity.
    + exists w'. split; [exact Hrun|]. split; [exact Ht|].
      destruct Hw as [[[He | He] _] | (_ & Hw & _)];
        [discriminate He | discriminate He | exact Hw].
  - destruct (@add_purchase_insert_error sample_platform nul_product_request
                (world_of pharmacy alice_session)
                (world_of pharmacy alice_session)
                (String "1" (String Ascii.zero "")) "1" "100" "2025-01-01"
                100 ValueError)
      as (w' & Hrun & _ & _ & _ & _ & _ & _ & Hw).
    + reflexivity.
    + repeat split; reflexivity.
    + reflexivity.
    + reflexivity.
    + destruct Hw as [[_ Hw] | (He & _)]; [|discriminate He].
      rewrite Hrun, Hw. reflexivity.
Defined.

(** A stock-in refused by a foreign key leaves its mark on the database:
    the counter of [Purchase] ids has moved, and the next stock-in gets
    the id 2 instead of 1. *)
Lemma add_purchase_refused_uses_an_id :
  (@view_function sample_platform AddPurchase unknown_product_request
     (world_of pharmacy alice_session)).1 = Raise IntegrityError ∧
  sequences (world_of pharmacy alice_session) !! "purchase_id_seq" = None ∧
  sequences (@view_function sample_platform AddPurchase unknown_product_request
               (world_of pharmacy alice_session)).2 !! "purchase_id_seq"
    = Some 1 ∧
  (@view_function sample_platform AddPurchase unknown_product_request
     (world_of pharmacy alice_session)).2 ≠ world_of pharmacy alice_session ∧
  Purchase.id <$> Purchase (tables
    (@view_function sample_platform AddPurchase stock_in_request
       (world_of pharmacy alice_session)).2) = [1] ∧
  Purchase.id <$> Purchase (tables
    (@view_function sample_platform AddPurchase stock_in_request
       (@view_function sample_platform AddPurchase unknown_product_request
          (world_of pharmacy alice_session)).2).2) = [2].
Proof.
  assert (Hseq : sequences (@view_function sample_platform AddPurchase
                              unknown_product_request
                              (world_of pharmacy alice_session)).2
                 !! "purchase_id_seq" = Some 1)
    by (vm_compute; reflexivity).
  split; [vm_compute; reflexivity|]. split; [reflexivity|].
  split; [exact Hseq|]. split; [|split; vm_compute; reflexivity].
  intros Heq. rewrite Heq in Hseq. discriminate Hseq.
Qed.

Lemma bad_form_raises_witness :
  (∃ key, @auth sample_platform (post [("username", "alice")])
            (world_of pharmacy ∅)
          = (Raise (BadRequestKeyError key), world_of pharmacy ∅)) ∧
  (∃ e, @add_purchase sample_platform
          (post [("product_id", "1"); ("supplier_id", "1");
                 ("purchase_quantity", "ten"); ("expiration_date", "2025-01-01")])
          (world_of pharmacy alice_session)
        = (Raise e, world_of pharmacy alice_session)).
Proof.
  split.
  - destruct (proj1 (@bad_form_raises sample_platform
                       (post [("username", "alice")]) (world_of pharmacy ∅)))
      as (key & Hrun & _).
    + right. reflexivity.
    + exists key. exact Hrun.
  - destruct (proj2 (@bad_form_raises sample_platform
                       (post [("product_id", "1"); ("supplier_id", "1");
                              ("purchase_quantity", "ten");
                              ("expiration_date", "2025-01-01")])
                       (world_of pharmacy alice_session)))
      as (e & Hrun & _).
    + do 4 right. exists "ten". split; reflexivity.
    + exists e. exact Hrun.
Defined.



(** * The further properties on concrete requests *)

Lemma serve_session_ok_witness :
  session_ok (session (@serve sample_platform morning (world_of pharmacy ∅))).
Proof.
  apply (@serve_session_ok sample_platform morning (world_of pharmacy ∅)).
  intros Hin. discriminate Hin.
Defined.

Lemma serve_serial_ok_witness :
  serial_ok (@serve sample_platform morning (world_of pharmacy ∅)).
Proof.
  apply (@serve_serial_ok sample_platform morning (world_of pharmacy ∅)).
  repeat split; constructor.
Defined.


Lemma purchases_lists_each_once_witness :
  ∃ ps prods sups,
    @purchases sample_platform (post []) (world_of pharmacy ∅)
      = (Return (render_purchase_html ps prods sups), world_of pharmacy ∅) ∧
    length ps = 0%nat.
Proof.
  destruct (@purchases_lists_each_once sample_platform (post [])
              (world_of pharmacy ∅)) as (ps & prods & sups & Hrun & _ & Hlen).
  - split; apply (bool_decide_unpack _); vm_compute; exact I.
  - exists ps, prods, sups. split; assumption.
Defined.

Lemma dashboard_reads_active_products_witness :
  (dashboard (post []) (world_of pharmacy ∅)).1
    = (dashboard (post []) (world_of pharmacy_reordered alice_session)).1.
Proof.
  apply (dashboard_reads_active_products (post []) (world_of pharmacy ∅)
           (world_of pharmacy_reordered alice_session)).
  apply (perm_swap gauze aspirin []).
Defined.



Lemma add_purchase_refusals_witness :
  @view_function sample_platform AddPurchase nul_product_request
    (world_of pharmacy alice_session)
    = (Raise ValueError, world_of pharmacy alice_session) ∧
  @view_function sample_platform AddPurchase overflow_request
    (world_of pharmacy alice_session)
    = (Raise DataError, world_of pharmacy alice_session) ∧
  @view_function sample_platform AddPurchase unknown_product_request
    (world_of pharmacy alice_session)
    = (Raise IntegrityError,
       bump "purchase_id_seq" (world_of pharmacy alice_session)).
Proof.
  split; [|split].
  - destruct (@add_purchase_refusals sample_platform nul_product_request
                (world_of pharmacy alice_session)
                (String "1" (String Ascii.zero "")) "1" "100" "2025-01-01" 100)
      as [Hnul _].
    + reflexivity.
    + repeat split; reflexivity.
    + reflexivity.
    + apply Hnul. left. reflexivity.
  - destruct (@add_purchase_refusals sample_platform overflow_request
                (world_of pharmacy alice_session)
                "1" "1" "2147483648" "2025-01-01" 2147483648)
      as (_ & Hdata & _).
    + reflexivity.
    + repeat split; reflexivity.
    + reflexivity.
    + apply Hdata; [reflexivity | reflexivity | reflexivity |].
      right. right. left. reflexivity.
  - destruct (@add_purchase_refusals sample_platform unknown_product_request
                (world_of pharmacy alice_session)
                "999" "1" "100" "2025-01-01" 100) as (_ & _ & Hfk).
    + reflexivity.
    + repeat split; reflexivity.
    + reflexivity.
    + apply (Hfk 999 1 20250101); try reflexivity. left. reflexivity.
Defined.


Lemma auth_rejections_alike_witness :
  @auth sample_platform mallory_login (world_of pharmacy ∅)
    = @auth sample_platform alice_wrong_password (world_of pharmacy ∅).
Proof.
  destruct (@auth_rejections_alike sample_platform mallory_login
              alice_wrong_password (world_of pharmacy ∅)
              "mallory" "secret" "alice" "guess" alice) as [Hsame _].
  - reflexivity.
  - reflexivity.
  - reflexivity.
  - reflexivity.
  - reflexivity.
  - intros r Hr. apply list_elem_of_singleton in Hr. rewrite Hr. discriminate.
  - apply NoDup_singleton.
  - apply list_elem_of_singleton. reflexivity.
  - reflexivity.
  - reflexivity.
  - reflexivity.
  - exact Hsame.
Defined.

Lemma init_db_creates_missing_tables_witness :
  create_Purchase no_tables = None ∧
  init_db no_tables = Some (catalog_of empty_tables).
Proof.
  destruct (init_db_creates_missing_tables no_tables)
    as ((c' & Hrun & _) & _ & Hrefused).
  split; [by apply Hrefused | reflexivity].
Defined.
